(** * arxiv_scraper: a shallow embedding of [src/arxiv_scraper.py]

    The module has three parts: the [Record] class, which maps one arXiv
    metadata fragment to a flat dictionary; the [Scraper] class, whose
    [scrape] method walks the resumption-token paging protocol, retries on
    HTTP 503 and filters records by keyword; and [generate_html], which
    renders the retained records.

    Modelling conventions.
    - A Python [str] is the [string] of its UTF-8 bytes; concatenation,
      the substring test and the replacement of newlines are the same on
      bytes as on characters.  The methods [str.lower] and [str.strip] are
      the interpreter's: they are taken as the class [PyStr], of which only
      their values on ASCII text are stated.
    - A Python exception is a value of [exn]; a computation that may raise
      has type [result A].  [try: ... except: ...] is [try_except].
    - An ElementTree element is an [Element]: tag, text and children.
    - A Python [dict] is an association list in insertion order.
    - The network and the clock are the environment: the list of outcomes of
      the successive [urlopen] calls, and the successive readings of
      [time.time()]. *)

From Stdlib Require Import String Ascii List ZArith Bool Arith Lia.
From Stdlib Require QArith.
Import ListNotations.

Local Open Scope list_scope.
Local Open Scope string_scope.

(** ** Characters and strings *)

Module Str.

Definition nl : ascii := "010"%char.
Definition dquote : ascii := "034"%char.

(** [str.isspace] on ASCII: TAB, LF, VT, FF, CR, FS, GS, RS, US, SPACE. *)
Definition is_space (c : ascii) : bool :=
  let n := nat_of_ascii c in
  (((9 <=? n) && (n <=? 13)) || ((28 <=? n) && (n <=? 32)))%nat.

Definition is_upper (c : ascii) : bool :=
  let n := nat_of_ascii c in ((65 <=? n) && (n <=? 90))%nat.

Definition lower_char (c : ascii) : ascii :=
  if is_upper c then ascii_of_nat (nat_of_ascii c + 32) else c.

(** [s.lower()] on ASCII text: A-Z become a-z. *)
Fixpoint lower (s : string) : string :=
  match s with
  | EmptyString => EmptyString
  | String c s' => String (lower_char c) (lower s')
  end.

Fixpoint lstrip (s : string) : string :=
  match s with
  | EmptyString => EmptyString
  | String c s' => if is_space c then lstrip s' else s
  end.

Fixpoint rstrip (s : string) : string :=
  match s with
  | EmptyString => EmptyString
  | String c s' =>
      match rstrip s' with
      | EmptyString => if is_space c then EmptyString else String c EmptyString
      | r => String c r
      end
  end.

(** [s.strip()] on ASCII text: the blanks of [is_space] go at both ends. *)
Definition strip (s : string) : string := rstrip (lstrip s).

(** [s.replace(a, b)] for one-character [a] and [b]. *)
Fixpoint replace_char (a b : ascii) (s : string) : string :=
  match s with
  | EmptyString => EmptyString
  | String c s' =>
      String (if Ascii.eqb c a then b else c) (replace_char a b s')
  end.

Fixpoint map_chars (g : ascii -> ascii) (s : string) : string :=
  match s with
  | EmptyString => EmptyString
  | String c s' => String (g c) (map_chars g s')
  end.

Fixpoint starts_with (w s : string) : bool :=
  match w, s with
  | EmptyString, _ => true
  | String a w', String b s' => Ascii.eqb a b && starts_with w' s'
  | String _ _, EmptyString => false
  end.

(** [w in s] for two strings: [w] occurs in [s] as a contiguous run. *)
Fixpoint contains (w s : string) : bool :=
  starts_with w s ||
  match s with
  | EmptyString => false
  | String _ s' => contains w s'
  end.

(** [sep.join(l)] *)
Fixpoint join (sep : string) (l : list string) : string :=
  match l with
  | [] => EmptyString
  | [x] => x
  | x :: rest => x ++ sep ++ join sep rest
  end.

Fixpoint chars (s : string) : list string :=
  match s with
  | EmptyString => []
  | String c s' => String c EmptyString :: chars s'
  end.

Definition first_char (s : string) : option ascii :=
  match s with EmptyString => None | String c _ => Some c end.

Fixpoint mem_char (a : ascii) (s : string) : bool :=
  match s with
  | EmptyString => false
  | String c s' => Ascii.eqb c a || mem_char a s'
  end.

Fixpoint all_chars (p : ascii -> bool) (s : string) : bool :=
  match s with
  | EmptyString => true
  | String c s' => p c && all_chars p s'
  end.

(** The text is ASCII: every byte is below 128. *)
Definition is_ascii_char (c : ascii) : bool := (nat_of_ascii c <? 128)%nat.

Definition is_ascii (s : string) : bool := all_chars is_ascii_char s.

(** The string is empty or begins with a character that is not blank. *)
Definition starts_clean (s : string) : bool :=
  match first_char s with
  | Some c => negb (is_space c)
  | None => true
  end.

(** [w] occurs in [s]: the specification of [contains]. *)
Definition occurs_in (w s : string) : Prop :=
  exists pre post, s = pre ++ w ++ post.

End Str.

(** The string methods of the interpreter that the program calls.  On ASCII
    text [s.lower()] maps the letters A-Z to a-z and [s.strip()] removes the
    ASCII blanks at both ends; nothing is stated about other text. *)
Class PyStr : Type := {
  str_lower : string -> string;
  str_strip : string -> string;
  str_lower_ascii :
    forall s, Str.is_ascii s = true -> str_lower s = Str.lower s;
  str_strip_ascii :
    forall s, Str.is_ascii s = true -> str_strip s = Str.strip s
}.

(** The two methods restricted to ASCII, to run the program on ASCII text. *)
#[export] Instance ascii_str : PyStr := {|
  str_lower := Str.lower;
  str_strip := Str.strip;
  str_lower_ascii := fun _ _ => eq_refl;
  str_strip_ascii := fun _ _ => eq_refl
|}.

(** ** Exceptions and fallible computations *)

Inductive exn : Type :=
| AttributeError
| KeyError (key : string)
| ValueError
| UnboundLocalError (name : string)
| OverflowError
| ParseError
| URLError
| HTTPError (code : Z) (hdrs : list (string * string)).

Inductive result (A : Type) : Type :=
| Ok (a : A)
| Raise (e : exn).

Arguments Ok {A} a.
Arguments Raise {A} e.

Definition bind {A B} (m : result A) (k : A -> result B) : result B :=
  match m with
  | Ok a => k a
  | Raise e => Raise e
  end.

Notation "x <- m ;; k" := (bind m (fun x => k))
  (at level 61, m at next level, right associativity).

(** [try: body  except: handler] with a bare [except]. *)
Definition try_except {A} (body : result A) (handler : A) : A :=
  match body with
  | Ok a => a
  | Raise _ => handler
  end.

Definition raises {A} (m : result A) : bool :=
  match m with Ok _ => false | Raise _ => true end.

(** ** ElementTree elements *)

#[warnings="-register-all"] Inductive Element : Type :=
  Elem { tag : string; text : option string; children : list Element }.

(** [e.find(t)] for a path of one step: the first child tagged [t]. *)
Definition find (e : Element) (t : string) : option Element :=
  List.find (fun c => String.eqb (tag c) t) (children e).

(** [e.findall(a + "/" + b)]: the children tagged [b] of the children tagged
    [a], in document order. *)
Definition findall2 (e : Element) (a b : string) : list Element :=
  flat_map (fun c => filter (fun d => String.eqb (tag d) b) (children c))
           (filter (fun c => String.eqb (tag c) a) (children e)).

(** Attribute access and method calls on a value that may be [None]. *)
Definition py_find (o : option Element) (t : string)
  : result (option Element) :=
  match o with
  | Some e => Ok (find e t)
  | None => Raise AttributeError
  end.

Definition py_findall2 (o : option Element) (a b : string)
  : result (list Element) :=
  match o with
  | Some e => Ok (findall2 e a b)
  | None => Raise AttributeError
  end.

Definition py_text (o : option Element) : result (option string) :=
  match o with
  | Some e => Ok (text e)
  | None => Raise AttributeError
  end.

Definition py_strip {P : PyStr} (o : option string) : result string :=
  match o with
  | Some s => Ok (str_strip s)
  | None => Raise AttributeError
  end.

Definition py_lower {P : PyStr} (o : option string) : result string :=
  match o with
  | Some s => Ok (str_lower s)
  | None => Raise AttributeError
  end.

(** ** Constants *)

Definition OAI : string := "{http://www.openarchives.org/OAI/2.0/}".
Definition ARXIV : string := "{http://arxiv.org/OAI/arXiv/}".
Definition BASE : string := "http://export.arxiv.org/oai2?verb=ListRecords&".

(** ** class Record *)

(** Values stored in the dictionary built by [output]. *)
Inductive value : Type :=
| VStr (s : string)
| VList (l : list string).

Definition pydict : Type := list (string * value).

Fixpoint lookup {V} (d : list (string * V)) (key : string) : option V :=
  match d with
  | [] => None
  | (k, v) :: d' => if String.eqb k key then Some v else lookup d' key
  end.

(** [d[key]] *)
Definition getitem {V} (d : list (string * V)) (key : string) : result V :=
  match lookup d key with
  | Some v => Ok v
  | None => Raise (KeyError key)
  end.

Definition dict_keys {V} (d : list (string * V)) : list string :=
  map fst d.

Record ArxivRecord : Type := mkRecord {
  r_xml : option Element;
  r_id : string;
  r_url : string;
  r_title : string;
  r_abstract : string;
  r_cats : string;
  r_created : string;
  r_updated : string;
  r_doi : string;
  r_authors : list string;
  r_affiliation : list string
}.

Definition _get_text {P : PyStr} (xml : option Element)
    (namespace tag : string)
  : string :=
  try_except
    (e <- py_find xml (namespace ++ tag) ;;
     t <- py_text e ;;
     s <- py_strip t ;;
     Ok (Str.replace_char Str.nl " " (str_lower s)))
    "".

Definition _get_name {P : PyStr} (parent : Element) (attribute : string)
  : string :=
  try_except
    (t <- py_text (find parent (ARXIV ++ attribute)) ;;
     py_lower t)
    "n/a".

(** [zip] of two lists, as [zip(first_names, last_names)]. *)
Definition zip {A B} (l : list A) (l' : list B) : list (A * B) :=
  combine l l'.

Definition _get_authors {P : PyStr} (xml : option Element)
  : result (list string) :=
  authors_xml <- py_findall2 xml (ARXIV ++ "authors") (ARXIV ++ "author") ;;
  let last_names := map (fun author => _get_name author "keyname") authors_xml in
  let first_names :=
    map (fun author => _get_name author "forenames") authors_xml in
  let full_names :=
    map (fun ab => fst ab ++ " " ++ snd ab) (zip first_names last_names) in
  Ok full_names.

(** The list comprehension of [_get_affiliation]: it stops at the first
    author whose lookup raises. *)
Fixpoint affiliation_comprehension {P : PyStr} (authors : list Element)
  : result (list string) :=
  match authors with
  | [] => Ok []
  | author :: rest =>
      t <- py_text (find author (ARXIV ++ "affiliation")) ;;
      a <- py_lower t ;;
      l <- affiliation_comprehension rest ;;
      Ok (a :: l)
  end.

Definition _get_affiliation {P : PyStr} (xml : option Element)
  : result (list string) :=
  authors <- py_findall2 xml (ARXIV ++ "authors") (ARXIV ++ "author") ;;
  Ok (try_except (affiliation_comprehension authors) []).

(** [Record.__init__] *)
Definition Record_init {P : PyStr} (xml_record : option Element)
  : result ArxivRecord :=
  let id := _get_text xml_record ARXIV "id" in
  let url := "https://arxiv.org/abs/" ++ id in
  let title := _get_text xml_record ARXIV "title" in
  let abstract := _get_text xml_record ARXIV "abstract" in
  let cats := _get_text xml_record ARXIV "categories" in
  let created := _get_text xml_record ARXIV "created" in
  let updated := _get_text xml_record ARXIV "updated" in
  let doi := _get_text xml_record ARXIV "doi" in
  authors <- _get_authors xml_record ;;
  affiliation <- _get_affiliation xml_record ;;
  Ok (mkRecord xml_record id url title abstract cats created updated doi
        authors affiliation).

(** [Record.output] *)
Definition output (self : ArxivRecord) : pydict :=
  [ ("title", VStr (r_title self));
    ("id", VStr (r_id self));
    ("abstract", VStr (r_abstract self));
    ("categories", VStr (r_cats self));
    ("doi", VStr (r_doi self));
    ("created", VStr (r_created self));
    ("updated", VStr (r_updated self));
    ("authors", VList (r_authors self));
    ("affiliation", VList (r_affiliation self));
    ("url", VStr (r_url self)) ].

(** *** Vocabulary for the properties of a record *)

(** The text of the first child tagged [t], if there is such a child and it
    has a text. *)
Definition child_text (parent : Element) (t : string) : option string :=
  match find parent t with
  | Some e => text e
  | None => None
  end.

(** Trim, lowercase, then newlines to spaces. *)
Definition normalize {P : PyStr} (raw : string) : string :=
  Str.replace_char Str.nl " " (str_lower (str_strip raw)).

(** A value is normalized: stripping and lowercasing leave it unchanged and
    it holds no newline. *)
Definition normalized {P : PyStr} (v : string) : Prop :=
  str_strip v = v /\ str_lower v = v /\ Str.mem_char Str.nl v = false.

(** The scalar fields: XML tag and attribute of the record. *)
Definition scalar_fields : list (string * (ArxivRecord -> string)) :=
  [ ("id", r_id); ("title", r_title); ("abstract", r_abstract);
    ("categories", r_cats); ("created", r_created); ("updated", r_updated);
    ("doi", r_doi) ].

(** The [author] elements of a fragment. *)
Definition authors_xml (xml : Element) : list Element :=
  findall2 xml (ARXIV ++ "authors") (ARXIV ++ "author").

(** The keys of every dictionary built by [output]. *)
Definition record_keys : list string :=
  [ "title"; "id"; "abstract"; "categories"; "doi"; "created"; "updated";
    "authors"; "affiliation"; "url" ].

(** ** Dates *)

Record date : Type := mkDate { year : Z; month : Z; day : Z }.

Definition is_leap (y : Z) : bool :=
  ((y mod 4 =? 0) && (negb (y mod 100 =? 0) || (y mod 400 =? 0)))%Z.

Definition days_in_month (y m : Z) : Z :=
  (if m =? 2 then (if is_leap y then 29 else 28)
   else if (m =? 4) || (m =? 6) || (m =? 9) || (m =? 11) then 30
   else 31)%Z.

(** [d - datetime.timedelta(days=1)]; [date.min] is 0001-01-01. *)
Definition date_minus_one_day (d : date) : result date :=
  (if 1 <? day d then Ok (mkDate (year d) (month d) (day d - 1))
   else if 1 <? month d then
     Ok (mkDate (year d) (month d - 1) (days_in_month (year d) (month d - 1)))
   else if 1 <? year d then Ok (mkDate (year d - 1) 12 31)
   else Raise OverflowError)%Z.

Definition digit_char (n : Z) : ascii :=
  ascii_of_nat (48 + Z.to_nat (n mod 10)).

(** The last [width] decimal digits of [n], zero-padded: ["%0<width>d"]. *)
Fixpoint pad_num (width : nat) (n : Z) : string :=
  match width with
  | O => EmptyString
  | S w => pad_num w (n / 10) ++ String (digit_char n) EmptyString
  end.

(** [str(d)], also [d.strftime("%Y-%m-%d")] for a four-digit year. *)
Definition date_str (d : date) : string :=
  pad_num 4 (year d) ++ "-" ++ pad_num 2 (month d) ++ "-" ++ pad_num 2 (day d).

(** ** class Scraper *)

Definition filter_config : Type := list (string * list string).

Record Scraper : Type := mkScraper {
  cat : string;
  t : Z;
  timeout : Z;
  f : string;
  u : string;
  url : string;
  filters : filter_config;
  append_all : bool;
  keys : option (list string)   (* the attribute exists only with filters *)
}.

(** [Scraper.__init__]; [today] is the value of [datetime.date.today()].
    The local variable [yesterday] is bound only by the first branch. *)
Definition Scraper_init (today : date) (category : string)
    (date_from date_until : option string) (t timeout : Z)
    (filters : filter_config) : result Scraper :=
  let cat := category in
  bound <- match date_from with
           | None =>
               yesterday <- date_minus_one_day today ;;
               Ok (Some yesterday, date_str yesterday)
           | Some d => Ok (None, d)
           end ;;
  let yesterday : option date := fst bound in
  let f := snd bound in
  u <- match date_until with
       | None =>
           match yesterday with
           | Some y => Ok (date_str y)
           | None => Raise (UnboundLocalError "yesterday")
           end
       | Some d => Ok d
       end ;;
  let url :=
    BASE ++ "from=" ++ f ++ "&until=" ++ u ++ "&metadataPrefix=arXiv&set=" ++ cat
  in
  match filters with
  | [] => Ok (mkScraper cat t timeout f u url filters true None)
  | _ => Ok (mkScraper cat t timeout f u url filters false
               (Some (dict_keys filters)))
  end.

(** *** The keyword filter of [scrape] *)

(** [word in v]: substring test on a string, membership on a list. *)
Definition py_in (word : string) (v : value) : bool :=
  match v with
  | VStr s => Str.contains word s
  | VList l => existsb (String.eqb word) l
  end.

(** [for word in self.filters[key]: if word.lower() in record[key]: ...] *)
Fixpoint words_loop {P : PyStr} (record : pydict) (key : string)
    (words : list string)
    (save_record : bool) : result bool :=
  match words with
  | [] => Ok save_record
  | word :: rest =>
      v <- getitem record key ;;
      words_loop record key rest
        (if py_in (str_lower word) v then true else save_record)
  end.

(** [for key in self.keys: ...] *)
Fixpoint keys_loop {P : PyStr} (filters : filter_config) (record : pydict)
    (keys : list string) (save_record : bool) : result bool :=
  match keys with
  | [] => Ok save_record
  | key :: rest =>
      words <- getitem filters key ;;
      save_record' <- words_loop record key words save_record ;;
      keys_loop filters record rest save_record'
  end.

(** What the two loops compute when no lookup fails. *)
Definition words_match {P : PyStr} (record : pydict) (key : string)
    (words : list string) : bool :=
  match lookup record key with
  | Some v => existsb (fun w => py_in (str_lower w) v) words
  | None => false
  end.

Definition keys_match {P : PyStr} (filters : filter_config)
    (record : pydict)
    (keys : list string) : bool :=
  existsb (fun key =>
             match lookup filters key with
             | Some words => words_match record key words
             | None => false
             end) keys.

Definition getattr_keys (self : Scraper) : result (list string) :=
  match keys self with
  | Some ks => Ok ks
  | None => Raise AttributeError
  end.

(** The value of the flag [save_record] after the two loops. *)
Definition save_record {P : PyStr} (self : Scraper) (record : pydict)
  : result bool :=
  ks <- getattr_keys self ;;
  keys_loop (filters self) record ks false.

(** Lines 148-158: the list [ds] after one record has been considered. *)
Definition append_record {P : PyStr} (self : Scraper) (ds : list pydict)
    (record : pydict) : result (list pydict) :=
  if append_all self then Ok (ds ++ [record])%list
  else
    save <- save_record self record ;;
    if save then Ok (ds ++ [record])%list else Ok ds.

(** Lines 146-147: the dictionary of one [record] element of the page. *)
Definition record_dict {P : PyStr} (record : Element) : result pydict :=
  md <- py_find (Some record) (OAI ++ "metadata") ;;
  meta <- py_find md (ARXIV ++ "arXiv") ;;
  r <- Record_init meta ;;
  Ok (output r).

(** Lines 146-158: the body of [for record in records]. *)
Definition process_record {P : PyStr} (self : Scraper) (ds : list pydict)
    (record : Element) : result (list pydict) :=
  d <- record_dict record ;;
  append_record self ds d.

Fixpoint records_loop {P : PyStr} (self : Scraper) (ds : list pydict)
    (records : list Element) : result (list pydict) :=
  match records with
  | [] => Ok ds
  | record :: rest =>
      ds' <- process_record self ds record ;;
      records_loop self ds' rest
  end.

(** *** Vocabulary for the properties of the filter *)




(** Some configured (field, substring) pair satisfies [m] on the record. *)
Definition some_pair (m : string -> value -> Prop) (filters : filter_config)
    (record : pydict) : Prop :=
  exists key words word v,
    lookup filters key = Some words /\ In word words /\
    lookup record key = Some v /\ m word v.


(** The records that the filter keeps. *)
Definition kept {P : PyStr} (self : Scraper) (d : pydict) : bool :=
  match save_record self d with
  | Ok b => b
  | Raise _ => false
  end.

(** *** The response headers and [int] *)

(** [hdrs.get(name, failobj)]: header names, which are ASCII, compare
    case-insensitively and the first match wins. *)
Fixpoint hdrs_get (hdrs : list (string * string)) (name : string)
  : option string :=
  match hdrs with
  | [] => None
  | (k, v) :: rest =>
      if String.eqb (Str.lower k) (Str.lower name) then Some v
      else hdrs_get rest name
  end.

Definition is_digit (c : ascii) : bool :=
  let n := nat_of_ascii c in ((48 <=? n) && (n <=? 57))%nat.

Definition digit_val (c : ascii) : Z := Z.of_nat (nat_of_ascii c - 48).

(** Decimal digits, single underscores allowed between two digits. *)
Fixpoint parse_digits (s : string) (acc : Z) (after_digit : bool)
  : option Z :=
  match s with
  | EmptyString => if after_digit then Some acc else None
  | String c s' =>
      if is_digit c then parse_digits s' (10 * acc + digit_val c)%Z true
      else if Ascii.eqb c "_" && after_digit then parse_digits s' acc false
      else None
  end.

(** [int(s)] for a string [s] of ASCII text, base ten (the interpreter's
    optional cap on the number of digits is not modelled). *)
Definition py_int_str (s : string) : result Z :=
  let body :=
    match Str.strip s with
    | String "-" r => option_map Z.opp (parse_digits r 0%Z false)
    | String "+" r => parse_digits r 0%Z false
    | r => parse_digits r 0%Z false
    end in
  match body with
  | Some z => Ok z
  | None => Raise ValueError
  end.

(** [int(e.hdrs.get("retry-after", 30))] *)
Definition retry_after (hdrs : list (string * string)) : result Z :=
  match hdrs_get hdrs "retry-after" with
  | Some v => py_int_str v
  | None => Ok 30%Z
  end.

(** *** The environment of [scrape] *)

(** What one call [urlopen(url)] followed by [response.read()] and
    [ET.fromstring] gives: a parsed document, a body that is not
    well-formed XML, an [HTTPError], or another failure of [urlopen]. *)
Inductive http_outcome : Type :=
| Response (root : Element)
| Malformed
| HttpFailure (code : Z) (hdrs : list (string * string))
| OtherFailure.

(** Arithmetic on the readings of [time.time()].  The loop subtracts and
    adds readings and compares the sum with the integer budget.  Sums and
    differences of floats are kept abstract; the comparison [x >= z] of a
    float with an integer is exact: it compares the number that the float
    denotes, [t_val x], with [z].  [Z_time] below instantiates the class for
    evaluation. *)
Class TimeOps (T : Type) : Type := {
  t_zero : T;
  t_add : T -> T -> T;
  t_sub : T -> T -> T;
  t_ge : T -> Z -> bool;
  t_val : T -> QArith_base.Q;
  t_ge_spec :
    forall x z,
      t_ge x z = true <->
      QArith_base.Qle (QArith_base.inject_Z z) (t_val x)
}.

#[export] Instance Z_time : TimeOps Z := {|
  t_zero := 0%Z;
  t_add := Z.add;
  t_sub := Z.sub;
  t_ge := Z.geb;
  t_val := QArith_base.inject_Z;
  t_ge_spec := fun x z =>
    ltac:(rewrite Z.geb_le, QArith_base.Zle_Qle; reflexivity)
|}.

Section Scrape.

Context {P : PyStr} {T : Type} {ops : TimeOps T}.

(** Observable effects, in program order. *)
Inductive event : Type :=
| EvPrintFetching (n : Z)
| EvGet (url : string)
| EvPrintRetry (t : Z)
| EvSleep (t : Z)
| EvPrintCompleted (dt : T)
| EvPrintTotal (n : nat).

(** The local variables of [scrape] that change inside the loop, and the
    number of clock readings taken so far. *)
Record loop_state : Type := mkState {
  ls_url : string;
  ls_ds : list pydict;
  ls_k : Z;
  ls_elapsed : T;
  ls_tx : T;
  ls_ticks : nat
}.

Inductive step_result : Type :=
| Continue (st : loop_state)
| Break (st : loop_state)
| ReturnOne
| Throw (e : exn).

(** What [scrape] hands back: the list [ds] or an integer. *)
Inductive retval : Type :=
| RList (ds : list pydict)
| RInt (z : Z).

Inductive outcome : Type :=
| Returned (v : retval)
| Raised (e : exn)
| Pending (st : loop_state).   (* waiting for the next response *)

Variable self : Scraper.
Variable clock : nat -> T.   (* the n-th reading of [time.time()] *)

(** Lines 160-163: [root.find(ListRecords).find(resumptionToken)]. *)
Definition find_token (root : Element) : result (option Element) :=
  lr <- py_find (Some root) (OAI ++ "ListRecords") ;;
  py_find lr (OAI ++ "resumptionToken").

(** [token is None or token.text is None] fails exactly when there is a
    token with a text. *)
Definition token_text (token : option Element) : option string :=
  match token with
  | Some tk => text tk
  | None => None
  end.

(** Lines 169-174. *)
Definition check_budget (st : loop_state) : step_result :=
  let ty := clock (ls_ticks st) in
  let elapsed := t_add (ls_elapsed st) (t_sub ty (ls_tx st)) in
  if t_ge elapsed (timeout self) then
    Break (mkState (ls_url st) (ls_ds st) (ls_k st) elapsed (ls_tx st)
             (S (ls_ticks st)))
  else
    Continue (mkState (ls_url st) (ls_ds st) (ls_k st) elapsed
                (clock (S (ls_ticks st))) (S (S (ls_ticks st)))).

(** Lines 141-174: a page has been received and parsed. *)
Definition on_page (st : loop_state) (root : Element) : step_result :=
  let k := (ls_k st + 1)%Z in
  let records := findall2 root (OAI ++ "ListRecords") (OAI ++ "record") in
  match records_loop self (ls_ds st) records with
  | Raise e => Throw e
  | Ok ds =>
      match find_token root with
      | Raise _ => ReturnOne
      | Ok token =>
          match token_text token with
          | None =>
              Break (mkState (ls_url st) ds k (ls_elapsed st) (ls_tx st)
                       (ls_ticks st))
          | Some txt =>
              check_budget
                (mkState (BASE ++ "resumptionToken=" ++ txt) ds k
                   (ls_elapsed st) (ls_tx st) (ls_ticks st))
          end
      end
  end.

(** Lines 133-140: [urlopen] raised [HTTPError]. *)
Definition on_http_error (st : loop_state) (code : Z)
    (hdrs : list (string * string)) : list event * step_result :=
  if (code =? 503)%Z then
    match retry_after hdrs with
    | Raise e => ([], Throw e)
    | Ok _to =>
        (* [time.sleep] refuses a negative length *)
        if (t self <? 0)%Z then ([EvPrintRetry (t self)], Throw ValueError)
        else ([EvPrintRetry (t self); EvSleep (t self)], Continue st)
    end
  else ([], Throw (HTTPError code hdrs)).

(** One iteration of [while True], given what [urlopen] does. *)
Definition step (st : loop_state) (o : http_outcome)
  : list event * step_result :=
  let pre := [EvPrintFetching (1000 * ls_k st)%Z; EvGet (ls_url st)] in
  match o with
  | OtherFailure => (pre, Throw URLError)
  | HttpFailure code hdrs =>
      let r := on_http_error st code hdrs in
      ((pre ++ fst r)%list, snd r)
  | Malformed => (pre, Throw ParseError)
  | Response root => (pre, on_page st root)
  end.

(** Lines 176-179: after the loop. *)
Definition finish (t0 : T) (st : loop_state) : list event * outcome :=
  let t1 := clock (ls_ticks st) in
  ([EvPrintCompleted (t_sub t1 t0); EvPrintTotal (length (ls_ds st))],
   Returned (RList (ls_ds st))).

Definition emit (evs : list event) (r : list event * outcome)
  : list event * outcome :=
  ((evs ++ fst r)%list, snd r).

(** The loop, run against the successive outcomes of [urlopen]. *)
Fixpoint loop (t0 : T) (script : list http_outcome) (st : loop_state)
  : list event * outcome :=
  match script with
  | [] => ([], Pending st)
  | o :: rest =>
      let r := step st o in
      match snd r with
      | Continue st' => emit (fst r) (loop t0 rest st')
      | Break st' => emit (fst r) (finish t0 st')
      | ReturnOne => (fst r, Returned (RInt 1))
      | Throw e => (fst r, Raised e)
      end
  end.

(** [Scraper.scrape] *)
Definition scrape (script : list http_outcome) : list event * outcome :=
  let t0 := clock 0 in
  let tx := clock 1 in
  loop t0 script (mkState (url self) [] 1%Z t_zero tx 2).

End Scrape.

Arguments event T : clear implicits.
Arguments loop_state T : clear implicits.
Arguments outcome T : clear implicits.
Arguments step_result T : clear implicits.

(** ** generate_html *)

Definition NL : string := String Str.nl EmptyString.
Definition DQ : string := String Str.dquote EmptyString.

Section Html.

(** [str(l)] for a list of strings, as an f-string field would print a list;
    the renderer meets it only if a caller stores a list under ["url"] or
    ["title"], so it is left to the interpreter. *)
Variable repr_list : list string -> string.

(** [f"{v}"] *)
Definition format_value (v : value) : string :=
  match v with
  | VStr s => s
  | VList l => repr_list l
  end.

(** [sep.join(v)]: a string is joined character by character. *)
Definition join_value (sep : string) (v : value) : string :=
  match v with
  | VList l => Str.join sep l
  | VStr s => Str.join sep (Str.chars s)
  end.

(** Lines 185-189. *)
Definition html_header (formatted_date : string) : string :=
  NL ++ "    <div id=" ++ DQ ++ "div_diffusion_papers_list" ++ DQ
     ++ " class=" ++ DQ ++ "list-papers" ++ DQ ++ ">" ++
  NL ++ "    <div class=" ++ DQ ++ "date-papers" ++ DQ ++ ">" ++
  NL ++ "    <h6><b>" ++ formatted_date ++ "</b></h6>" ++
  NL ++ "    ".

(** The anchor of lines 193: link to the abstract page, title as text. *)
Definition anchor (href visible : string) : string :=
  "<a href='" ++ href ++ "' target='_blank'>" ++ visible ++ "</a>".

(** Lines 192-196: the text appended for one record. *)
Definition paragraph (record : pydict) : result string :=
  url <- getitem record "url" ;;
  title <- getitem record "title" ;;
  authors <- getitem record "authors" ;;
  Ok (NL ++ "        <p>" ++ anchor (format_value url) (format_value title)
         ++ "<br>" ++
      NL ++ "        " ++ join_value ", " authors ++
      NL ++ "        </p>" ++
      NL ++ "        ").

(** Lines 191-196. *)
Fixpoint paragraphs (html_content : string) (records : list pydict)
  : result string :=
  match records with
  | [] => Ok html_content
  | record :: rest =>
      p <- paragraph record ;;
      paragraphs (html_content ++ p) rest
  end.

(** The text that [generate_html] builds. *)
Definition html_content (today : date) (records : list pydict)
  : result string :=
  today_date <- date_minus_one_day today ;;
  let formatted_date := date_str today_date in
  body <- paragraphs (html_header formatted_date) records ;;
  Ok (body ++ "</div></div>").

(** [generate_html]: the file name and the text written to it. *)
Definition generate_html (today : date) (records : list pydict)
    (filename : string) : result (string * string) :=
  content <- html_content today records ;;
  Ok (filename, content).

End Html.

(** ** The script's entry point *)

(** The configuration of the [__main__] block. *)
Definition main_filters : filter_config :=
  [("abstract", ["diffusion"; "text to image"; "controlnet"])].

(** How the [__main__] block ends: the file is written, an exception
    escapes, [generate_html] iterates over the integer that [scrape]
    returned (TypeError), or the loop is still fetching. *)
Inductive main_outcome (T : Type) : Type :=
| Saved (filename content : string)
| Aborted (e : exn)
| NotIterable (z : Z)
| Fetching (st : loop_state T).

Arguments Saved {T} filename content.
Arguments Aborted {T} e.
Arguments NotIterable {T} z.
Arguments Fetching {T} st.

(** [generate_html(records, filename)] on what [scrape] returned: the date
    and the header are computed before the [for] statement looks at
    [records]. *)
Definition render_returned {T : Type} (repr_list : list string -> string)
    (today : date) (v : retval) (filename : string) : main_outcome T :=
  match v with
  | RList ds =>
      match generate_html repr_list today ds filename with
      | Ok (name, content) => Saved name content
      | Raise e => Aborted e
      end
  | RInt z =>
      match date_minus_one_day today with
      | Ok _ => NotIterable z
      | Raise e => Aborted e
      end
  end.

(** Lines 205-211.  [datetime.date.today()] is read once by the constructor
    and once by [generate_html]. *)
Definition main {P : PyStr} {T : Type} {ops : TimeOps T}
    (repr_list : list string -> string) (today_init today_render : date)
    (clock : nat -> T) (script : list http_outcome)
  : list (event T) * main_outcome T :=
  match Scraper_init today_init "cs" None None 30 300 main_filters with
  | Raise e => ([], Aborted e)
  | Ok scraper =>
      let r := scrape scraper clock script in
      (fst r,
       match snd r with
       | Returned records =>
           render_returned repr_list today_render records "arxiv_papers.html"
       | Raised e => Aborted e
       | Pending st => Fetching st
       end)
  end.

(** ** Vocabulary for further properties *)

(** The record that [Record.__init__] builds from an element. *)
Definition Record_of {P : PyStr} (xml : Element) : ArxivRecord :=
  mkRecord (Some xml)
    (_get_text (Some xml) ARXIV "id")
    ("https://arxiv.org/abs/" ++ _get_text (Some xml) ARXIV "id")
    (_get_text (Some xml) ARXIV "title")
    (_get_text (Some xml) ARXIV "abstract")
    (_get_text (Some xml) ARXIV "categories")
    (_get_text (Some xml) ARXIV "created")
    (_get_text (Some xml) ARXIV "updated")
    (_get_text (Some xml) ARXIV "doi")
    (map (fun a => _get_name a "forenames" ++ " " ++ _get_name a "keyname")
       (authors_xml xml))
    (try_except (affiliation_comprehension (authors_xml xml)) []).

(** The [arXiv] fragment inside the [metadata] child of a [record]. *)
Definition fragment_of (record : Element) : option Element :=
  match find record (OAI ++ "metadata") with
  | Some md => find md (ARXIV ++ "arXiv")
  | None => None
  end.

Definition has_fragment (record : Element) : bool :=
  match fragment_of record with Some _ => true | None => false end.

(** The dictionary of a [record] element that has a fragment. *)
Definition dict_of {P : PyStr} (record : Element) : pydict :=
  match fragment_of record with
  | Some meta => output (Record_of meta)
  | None => []
  end.

(** The [record] elements of a page. *)
Definition page_records (root : Element) : list Element :=
  findall2 root (OAI ++ "ListRecords") (OAI ++ "record").

(** The URLs requested along a trace. *)
Definition requested {T : Type} (trace : list (event T)) : list string :=
  flat_map (fun e => match e with EvGet u => [u] | _ => [] end) trace.

(** The number of parsed pages among the outcomes. *)
Definition pages (script : list http_outcome) : nat :=
  length (filter (fun o => match o with Response _ => true | _ => false end)
            script).


(** The configuration with every substring in lower case. *)
Definition lower_config {P : PyStr} (filters : filter_config)
  : filter_config :=
  map (fun p => (fst p, map str_lower (snd p))) filters.

(** Every configured substring is ASCII text. *)
Definition ascii_config (filters : filter_config) : Prop :=
  Forall (fun p => Forall (fun w => Str.is_ascii w = true) (snd p)) filters.

(** The accumulated time when [n] pages have been received and the loop
    goes on: page [j] adds the reading taken once it is processed, minus the
    reading taken when page [j - 1] was done (for the first page, on entry).
    No reading is taken for a 503 reply, so the time of the retries before
    a page is part of that page's interval. *)
Fixpoint elapsed_after {T : Type} {ops : TimeOps T} (clock : nat -> T)
    (n : nat) : T :=
  match n with
  | O => t_zero
  | S m =>
      t_add (elapsed_after clock m)
            (t_sub (clock (2 * m + 2)) (clock (2 * m + 1)))
  end.

(** The paragraph expected for a url, a title and authors, character by
    character. *)
Definition paragraph_text (url title : string) (authors : list string)
  : string :=
  NL ++ "        <p><a href='" ++ url ++ "' target='_blank'>" ++ title
     ++ "</a><br>" ++
  NL ++ "        " ++ Str.join ", " authors ++
  NL ++ "        </p>" ++
  NL ++ "        ".

(** The header expected for a date, character by character. *)
Definition header_text (formatted_date : string) : string :=
  NL ++ "    <div id=" ++ DQ ++ "div_diffusion_papers_list" ++ DQ
     ++ " class=" ++ DQ ++ "list-papers" ++ DQ ++ ">" ++
  NL ++ "    <div class=" ++ DQ ++ "date-papers" ++ DQ ++ ">" ++
  NL ++ "    <h6><b>" ++ formatted_date ++ "</b></h6>" ++
  NL ++ "    ".

Fixpoint concat_all (l : list string) : string :=
  match l with
  | [] => EmptyString
  | s :: rest => s ++ concat_all rest
  end.

(** The dated heading of the fragment. *)
Definition heading (formatted_date : string) : string :=
  "<h6><b>" ++ formatted_date ++ "</b></h6>".

(** ** Sample documents and configurations *)

Module Sample.

Definition leaf (ns name txt : string) : Element :=
  Elem (ns ++ name) (Some txt) [].

Definition author (forenames keyname : string) : Element :=
  Elem (ARXIV ++ "author") None
    [leaf ARXIV "keyname" keyname; leaf ARXIV "forenames" forenames].

(** A metadata fragment with every field, title "A Study of X". *)
Definition paper : Element :=
  Elem (ARXIV ++ "arXiv") None
    [ leaf ARXIV "id" "2401.00001";
      leaf ARXIV "created" "2024-01-01";
      Elem (ARXIV ++ "authors") None
        [author "Ada" "Lovelace"; author "Alan" "Turing"];
      leaf ARXIV "title" "A Study of X";
      leaf ARXIV "categories" "cs.CV cs.LG";
      leaf ARXIV "abstract"
        (" A Diffusion model" ++ NL ++ "for text to image. " ++ NL) ].

(** An author whose forenames carry surrounding blanks and a newline, and
    one without forenames. *)
Definition untrimmed_author : Element :=
  author (" Ada" ++ NL) "Lovelace".

Definition nameless_author : Element :=
  Elem (ARXIV ++ "author") None [leaf ARXIV "keyname" "Turing"].

Definition untrimmed_paper : Element :=
  Elem (ARXIV ++ "arXiv") None
    [ leaf ARXIV "id" "2401.00002";
      Elem (ARXIV ++ "title") None [];
      Elem (ARXIV ++ "authors") None [untrimmed_author; nameless_author] ].

Definition record_of (meta : Element) : Element :=
  Elem (OAI ++ "record") None
    [ Elem (OAI ++ "header") None [];
      Elem (OAI ++ "metadata") None [meta] ].

(** A page with two records and a resumption token. *)
Definition page1 : Element :=
  Elem (OAI ++ "OAI-PMH") None
    [ Elem (OAI ++ "ListRecords") None
        [ record_of paper; record_of untrimmed_paper;
          leaf OAI "resumptionToken" "tok|1001" ] ].

(** A last page: one record, no token. *)
Definition page2 : Element :=
  Elem (OAI ++ "OAI-PMH") None
    [ Elem (OAI ++ "ListRecords") None [ record_of paper ] ].

(** An OAI-PMH error document: no [ListRecords] element. *)
Definition error_page : Element :=
  Elem (OAI ++ "OAI-PMH") None
    [ leaf OAI "responseDate" "2024-01-02T00:00:00Z";
      leaf OAI "error" "noRecordsMatch" ].

Definition today : date := mkDate 2024 3 1.

Definition clock (n : nat) : Z := (100 * Z.of_nat n)%Z.

Definition no_filter : filter_config := [].

Definition abstract_filter : filter_config :=
  [("abstract", ["Diffusion"; "text to image"; "controlnet"])].

Definition many_filter : filter_config :=
  [("abstract", ["diffusion"; "model"]); ("title", ["study"])].


Definition journal_filter : filter_config :=
  [("title", ["study"]); ("journal", ["x"])].

Definition empty_words_filter : filter_config := [("journal", [])].

(** The scraper of the [__main__] block, with a given filter. *)
Definition scraper (filters : filter_config) : result Scraper :=
  Scraper_init today "cs" None None 30 300 filters.

Definition the_scraper (filters : filter_config) : Scraper :=
  match scraper filters with
  | Ok s => s
  | Raise _ => mkScraper "" 0 0 "" "" "" [] true None
  end.

(** The same scraper with a budget of 50 seconds. *)
Definition hasty_scraper : Scraper :=
  match Scraper_init today "cs" None None 30 50 [] with
  | Ok s => s
  | Raise _ => mkScraper "" 0 0 "" "" "" [] true None
  end.

Definition the_object (meta : Element) : ArxivRecord :=
  match Record_init (Some meta) with
  | Ok r => r
  | Raise _ => mkRecord None "" "" "" "" "" "" "" "" [] []
  end.

Definition the_record (meta : Element) : pydict :=
  match Record_init (Some meta) with
  | Ok r => output r
  | Raise _ => []
  end.

(** A 503 reply whose [Retry-After] header is an HTTP date. *)
Definition busy_with_date : http_outcome :=
  HttpFailure 503 [("Retry-After", "Wed, 21 Oct 2015 07:28:00 GMT")].

Definition busy : http_outcome :=
  HttpFailure 503 [("Retry-After", "600")].

(** The variables of the loop once [script] has been consumed, when the
    loop is then still running. *)
Definition state_after (self : Scraper) (script : list http_outcome)
  : loop_state Z :=
  match snd (scrape self clock script) with
  | Pending st => st
  | _ => mkState "" [] 0 0%Z 0%Z 0
  end.

End Sample.

(** ** Further sample documents *)

Module Cases.

(** A deleted record, as OAI-PMH serves it: a header and no metadata. *)
Definition deleted_record : Element :=
  Elem (OAI ++ "record") None
    [ Elem (OAI ++ "header") None [Sample.leaf OAI "identifier" "oai:1"] ].

(** A page holding a record, a deleted record and no token. *)
Definition page_with_deleted : Element :=
  Elem (OAI ++ "OAI-PMH") None
    [ Elem (OAI ++ "ListRecords") None
        [ Sample.record_of Sample.paper; deleted_record ] ].

End Cases.

(** * Facts about the string operations *)

Module StrFacts.
Import Str.

Ltac each_char c := destruct c as [[] [] [] [] [] [] [] []].

Lemma app_nil_r (s : string) : s ++ "" = s.
Proof. induction s as [|c s IH]; simpl; [reflexivity | now rewrite IH]. Qed.

Lemma app_assoc (a b c : string) : (a ++ b) ++ c = a ++ b ++ c.
Proof. induction a as [|x a IH]; simpl; [reflexivity | now rewrite IH]. Qed.

Lemma lower_char_idem (c : ascii) : lower_char (lower_char c) = lower_char c.
Proof. each_char c; reflexivity. Qed.

Lemma is_space_lower_char (c : ascii) : is_space (lower_char c) = is_space c.
Proof. each_char c; reflexivity. Qed.

Lemma lower_idem (s : string) : lower (lower s) = lower s.
Proof.
  induction s as [|c s IH]; simpl; [reflexivity|].
  now rewrite lower_char_idem, IH.
Qed.

Lemma lower_app (a b : string) : lower (a ++ b) = lower a ++ lower b.
Proof. induction a as [|c a IH]; simpl; [reflexivity | now rewrite IH]. Qed.

Lemma lower_is_map (s : string) : lower s = map_chars lower_char s.
Proof. induction s as [|c s IH]; simpl; [reflexivity | now rewrite IH]. Qed.

Lemma replace_char_is_map (a b : ascii) (s : string) :
  replace_char a b s = map_chars (fun c => if Ascii.eqb c a then b else c) s.
Proof. induction s as [|c s IH]; simpl; [reflexivity | now rewrite IH]. Qed.

(** *** Substring test *)

Lemma starts_with_spec (w s : string) :
  starts_with w s = true <-> exists post, s = w ++ post.
Proof.
  revert s; induction w as [|a w IH]; intros s; simpl.
  - split; [intros _; now exists s | reflexivity].
  - destruct s as [|b s].
    + split; [discriminate | intros [post H]; discriminate].
    + rewrite andb_true_iff, IH. split.
      * intros [Hab [post ->]]. apply Ascii.eqb_eq in Hab. subst b.
        now exists post.
      * intros [post H]. injection H as -> ->. split.
        -- apply Ascii.eqb_refl.
        -- now exists post.
Qed.


Lemma occurs_in_self (w : string) : occurs_in w w.
Proof. exists "", "". simpl. now rewrite app_nil_r. Qed.

(** *** Stripping *)

Lemma lstrip_starts_clean (s : string) : starts_clean (lstrip s) = true.
Proof.
  induction s as [|c s IH]; simpl; [reflexivity|].
  destruct (is_space c) eqn:E; [exact IH|].
  unfold starts_clean; simpl. now rewrite E.
Qed.

Lemma lstrip_clean (s : string) : starts_clean s = true -> lstrip s = s.
Proof.
  destruct s as [|c s]; simpl; [reflexivity|].
  unfold starts_clean; simpl. now destruct (is_space c).
Qed.

Lemma rstrip_starts_clean (s : string) :
  starts_clean s = true -> starts_clean (rstrip s) = true.
Proof.
  destruct s as [|c s]; simpl; [reflexivity|].
  unfold starts_clean; simpl. intros H.
  destruct (rstrip s); [destruct (is_space c) eqn:E|]; simpl; auto.
  now rewrite E.
Qed.

Lemma rstrip_cons (c : ascii) (s : string) :
  rstrip (String c s) =
  match rstrip s with
  | EmptyString => if is_space c then EmptyString else String c EmptyString
  | r => String c r
  end.
Proof. reflexivity. Qed.

Lemma rstrip_idem (s : string) : rstrip (rstrip s) = rstrip s.
Proof.
  induction s as [|c s IH]; [reflexivity|].
  rewrite (rstrip_cons c s).
  destruct (rstrip s) as [|d r] eqn:E.
  - destruct (is_space c) eqn:Ec; simpl; [reflexivity | now rewrite Ec].
  - rewrite rstrip_cons, IH. reflexivity.
Qed.

Lemma strip_idem (s : string) : strip (strip s) = strip s.
Proof.
  unfold strip.
  rewrite (lstrip_clean (rstrip (lstrip s))).
  - apply rstrip_idem.
  - apply rstrip_starts_clean, lstrip_starts_clean.
Qed.

Section MapChars.
Variable g : ascii -> ascii.
Hypothesis g_space : forall c, is_space (g c) = is_space c.

Lemma lstrip_map (s : string) :
  lstrip (map_chars g s) = map_chars g (lstrip s).
Proof.
  induction s as [|c s IH]; simpl; [reflexivity|].
  rewrite g_space. now destruct (is_space c).
Qed.

Lemma rstrip_map (s : string) :
  rstrip (map_chars g s) = map_chars g (rstrip s).
Proof.
  induction s as [|c s IH]; simpl; [reflexivity|].
  rewrite IH, g_space.
  destruct (rstrip s); simpl; [now destruct (is_space c) | reflexivity].
Qed.

Lemma strip_map (s : string) :
  strip (map_chars g s) = map_chars g (strip s).
Proof. unfold strip. now rewrite lstrip_map, rstrip_map. Qed.
End MapChars.

Lemma strip_lower (s : string) : strip (lower s) = lower (strip s).
Proof.
  rewrite !lower_is_map. apply strip_map, is_space_lower_char.
Qed.

Lemma strip_replace_nl (s : string) :
  strip (replace_char nl " " s) = replace_char nl " " (strip s).
Proof.
  rewrite !replace_char_is_map. apply strip_map.
  intros c; each_char c; reflexivity.
Qed.

Lemma lower_replace_nl (s : string) :
  lower (replace_char nl " " (lower s)) = replace_char nl " " (lower s).
Proof.
  induction s as [|c s IH]; simpl; [reflexivity|]. rewrite IH. f_equal.
  each_char c; reflexivity.
Qed.

Lemma no_nl_after_replace (s : string) :
  mem_char nl (replace_char nl " " s) = false.
Proof.
  induction s as [|c s IH]; simpl; [reflexivity|]. rewrite IH.
  each_char c; reflexivity.
Qed.

Lemma strip_blank (s : string) : all_chars is_space s = true -> strip s = "".
Proof.
  unfold strip. induction s as [|c s IH]; simpl; [reflexivity|].
  rewrite andb_true_iff. intros [-> H]. auto.
Qed.

Lemma strip_fixed_rstrip (v : string) : strip v = v -> rstrip v = v.
Proof.
  intros H. rewrite <- H. unfold strip. apply rstrip_idem.
Qed.

Lemma rstrip_app (p v : string) :
  rstrip v = v -> v <> "" -> rstrip (p ++ v) = p ++ v.
Proof.
  intros Hv Hne. induction p as [|c p IH]; [exact Hv|].
  cbn [append]. rewrite rstrip_cons, IH.
  destruct (p ++ v) eqn:E; [|reflexivity].
  destruct p; simpl in E; [contradiction | discriminate].
Qed.

Lemma mem_char_app (a : ascii) (p v : string) :
  mem_char a (p ++ v) = mem_char a p || mem_char a v.
Proof.
  induction p as [|c p IH]; simpl; [reflexivity|].
  now rewrite IH, orb_assoc.
Qed.

(** *** ASCII text and the interpreter's methods *)

Lemma is_ascii_app (a b : string) :
  is_ascii (a ++ b) = is_ascii a && is_ascii b.
Proof.
  unfold is_ascii. induction a as [|c a IH]; cbn [append all_chars];
    [reflexivity|]. now rewrite IH, andb_assoc.
Qed.

Lemma is_ascii_lower (s : string) : is_ascii s = true -> is_ascii (lower s) = true.
Proof.
  unfold is_ascii. induction s as [|c s IH]; cbn [lower all_chars];
    [reflexivity|].
  rewrite !andb_true_iff. intros [Hc Hs]. split; [|now apply IH].
  revert Hc. each_char c; vm_compute; intros Hc;
    first [reflexivity | discriminate Hc].
Qed.

Lemma is_ascii_lstrip (s : string) :
  is_ascii s = true -> is_ascii (lstrip s) = true.
Proof.
  unfold is_ascii. induction s as [|c s IH]; cbn [lstrip all_chars];
    [reflexivity|].
  rewrite andb_true_iff. intros [Hc Hs].
  destruct (is_space c); [now apply IH|]. cbn [all_chars]. now rewrite Hc, Hs.
Qed.

Lemma is_ascii_rstrip (s : string) :
  is_ascii s = true -> is_ascii (rstrip s) = true.
Proof.
  unfold is_ascii. induction s as [|c s IH]; [reflexivity|].
  rewrite rstrip_cons. cbn [all_chars]. rewrite andb_true_iff.
  intros [Hc Hs]. specialize (IH Hs).
  destruct (rstrip s) as [|d r].
  - destruct (is_space c); cbn [all_chars]; [reflexivity|]. now rewrite Hc.
  - cbn [all_chars] in *. now rewrite Hc, IH.
Qed.

Lemma is_ascii_strip (s : string) :
  is_ascii s = true -> is_ascii (strip s) = true.
Proof. intros H. unfold strip. now apply is_ascii_rstrip, is_ascii_lstrip. Qed.

Lemma is_ascii_replace_nl (s : string) :
  is_ascii s = true -> is_ascii (replace_char nl " " s) = true.
Proof.
  unfold is_ascii. induction s as [|c s IH]; cbn [replace_char all_chars];
    [reflexivity|].
  rewrite !andb_true_iff. intros [Hc Hs]. split; [|now apply IH].
  destruct (Ascii.eqb c nl); [reflexivity | exact Hc].
Qed.

Lemma blank_is_ascii (s : string) :
  all_chars is_space s = true -> is_ascii s = true.
Proof.
  unfold is_ascii. induction s as [|c s IH]; cbn [all_chars]; [reflexivity|].
  rewrite !andb_true_iff. intros [Hc Hs]. split; [|now apply IH].
  revert Hc. each_char c; vm_compute; intros Hc;
    first [reflexivity | discriminate Hc].
Qed.

Lemma str_lower_empty {P : PyStr} : str_lower "" = "".
Proof. now rewrite str_lower_ascii. Qed.

Lemma str_strip_blank {P : PyStr} (s : string) :
  all_chars is_space s = true -> str_strip s = "".
Proof.
  intros H. rewrite str_strip_ascii by now apply blank_is_ascii.
  now apply strip_blank.
Qed.

(** On ASCII text the pipeline of [_get_text] is the ASCII one, and its
    result is ASCII again. *)
Lemma pipeline_ascii {P : PyStr} (raw : string) :
  is_ascii raw = true ->
  replace_char nl " " (str_lower (str_strip raw)) =
  replace_char nl " " (lower (strip raw)) /\
  is_ascii (replace_char nl " " (lower (strip raw))) = true.
Proof.
  intros H. pose proof (is_ascii_strip raw H) as Hs.
  rewrite (str_strip_ascii raw H), (str_lower_ascii _ Hs). split;
    [reflexivity|]. now apply is_ascii_replace_nl, is_ascii_lower.
Qed.

End StrFacts.

(** * The Record Mapper *)

Module RecordFacts.
Import Str StrFacts.

Ltac py_simpl :=
  cbn [bind py_find py_findall2 py_text py_strip py_lower try_except].
Ltac py_simpl_in H :=
  cbn [bind py_find py_findall2 py_text py_strip py_lower try_except] in H.

Lemma get_text_eq {P : PyStr} (xml : Element) (tag : string) :
  _get_text (Some xml) ARXIV tag =
  match child_text xml (ARXIV ++ tag) with
  | Some raw => normalize raw
  | None => ""
  end.
Proof.
  unfold _get_text, child_text, normalize. py_simpl.
  destruct (find xml (ARXIV ++ tag)) as [e|]; py_simpl; [|reflexivity].
  destruct (text e); reflexivity.
Qed.

Lemma get_name_eq {P : PyStr} (parent : Element) (attribute : string) :
  _get_name parent attribute =
  match child_text parent (ARXIV ++ attribute) with
  | Some raw => str_lower raw
  | None => "n/a"
  end.
Proof.
  unfold _get_name, child_text.
  destruct (find parent (ARXIV ++ attribute)) as [e|]; py_simpl; [|reflexivity].
  destruct (text e); reflexivity.
Qed.


Lemma normalize_blank {P : PyStr} (raw : string) :
  all_chars is_space raw = true -> normalize raw = "".
Proof.
  intros H. unfold normalize.
  now rewrite (str_strip_blank raw H), str_lower_empty.
Qed.

Lemma map_zip {A B C D} (g : A -> B) (h : A -> C) (k : B * C -> D)
    (l : list A) :
  map k (zip (map g l) (map h l)) = map (fun a => k (g a, h a)) l.
Proof.
  unfold zip. induction l as [|a l IH]; simpl; [reflexivity | now rewrite IH].
Qed.

Lemma get_authors_eq {P : PyStr} (xml : Element) :
  _get_authors (Some xml) =
  Ok (map (fun a => _get_name a "forenames" ++ " " ++ _get_name a "keyname")
        (authors_xml xml)).
Proof.
  unfold _get_authors, authors_xml. py_simpl. now rewrite map_zip.
Qed.

(** Construction succeeds on every element. *)
Lemma Record_init_ok {P : PyStr} (xml : Element) :
  Record_init (Some xml) =
  Ok (mkRecord (Some xml)
        (_get_text (Some xml) ARXIV "id")
        ("https://arxiv.org/abs/" ++ _get_text (Some xml) ARXIV "id")
        (_get_text (Some xml) ARXIV "title")
        (_get_text (Some xml) ARXIV "abstract")
        (_get_text (Some xml) ARXIV "categories")
        (_get_text (Some xml) ARXIV "created")
        (_get_text (Some xml) ARXIV "updated")
        (_get_text (Some xml) ARXIV "doi")
        (map (fun a =>
                _get_name a "forenames" ++ " " ++ _get_name a "keyname")
           (authors_xml xml))
        (try_except (affiliation_comprehension (authors_xml xml)) [])).
Proof.
  unfold Record_init. rewrite get_authors_eq. reflexivity.
Qed.

Lemma record_construction_total {P : PyStr} (xml : Element) :
  exists r, Record_init (Some xml) = Ok r.
Proof. eexists. apply Record_init_ok. Qed.

(** It is the call on [None] that raises: [findall] has no guard. *)
Lemma Record_init_None {P : PyStr} : Record_init None = Raise AttributeError.
Proof. reflexivity. Qed.

Lemma scalar_field_eq {P : PyStr} (xml : Element) (r : ArxivRecord) tag get :
  Record_init (Some xml) = Ok r ->
  In (tag, get) scalar_fields ->
  get r = _get_text (Some xml) ARXIV tag.
Proof.
  rewrite Record_init_ok. intros [= <-] H. simpl in H.
  repeat (destruct H as [[= <- <-]|H]; [reflexivity|]). contradiction.
Qed.

Lemma affiliation_cons {P : PyStr} (b : Element) (rest : list Element) :
  affiliation_comprehension (b :: rest) =
  match child_text b (ARXIV ++ "affiliation") with
  | None => Raise AttributeError
  | Some tx =>
      match affiliation_comprehension rest with
      | Ok l => Ok (str_lower tx :: l)
      | Raise e => Raise e
      end
  end.
Proof.
  cbn [affiliation_comprehension]. unfold child_text.
  destruct (find b (ARXIV ++ "affiliation")) as [el|]; py_simpl;
    [|reflexivity].
  destruct (text el); py_simpl; [|reflexivity].
  destruct (affiliation_comprehension rest); reflexivity.
Qed.

Lemma affiliation_fails {P : PyStr} (authors : list Element) (a : Element) :
  In a authors ->
  child_text a (ARXIV ++ "affiliation") = None ->
  exists e, affiliation_comprehension authors = Raise e.
Proof.
  induction authors as [|b rest IH]; intros Hin Hnone; [contradiction|].
  rewrite affiliation_cons.
  destruct Hin as [->|Hin].
  - rewrite Hnone. now exists AttributeError.
  - destruct (IH Hin Hnone) as [e He]. rewrite He.
    destruct (child_text b (ARXIV ++ "affiliation"));
      [now exists e | now exists AttributeError].
Qed.


(** C6: for every metadata fragment, constructing the record does not raise;
    a scalar field whose element is missing, has no text or has a blank text
    is the empty string; each author is forenames, a space, keyname, where a
    missing component is the placeholder n/a; and if the affiliation lookup
    fails for one author, the affiliation of the whole record is the empty
    sequence. *)
Theorem record_construction_never_raises {P : PyStr} (xml : Element) :
  exists r,
    Record_init (Some xml) = Ok r /\
    (forall tag get, In (tag, get) scalar_fields ->
       match child_text xml (ARXIV ++ tag) with
       | None => get r = ""
       | Some raw => all_chars is_space raw = true -> get r = ""
       end) /\
    r_authors r =
      map (fun a => _get_name a "forenames" ++ " " ++ _get_name a "keyname")
        (authors_xml xml) /\
    (forall a attr,
       child_text a (ARXIV ++ attr) = None -> _get_name a attr = "n/a") /\
    ((exists a, In a (authors_xml xml) /\
                child_text a (ARXIV ++ "affiliation") = None) ->
     r_affiliation r = []).
Proof.
  eexists. split; [apply Record_init_ok|]. repeat split.
  - intros tag get Hin.
    rewrite (@scalar_field_eq P xml _ tag get (Record_init_ok xml) Hin).
    rewrite get_text_eq.
    destruct (child_text xml (ARXIV ++ tag)); [apply normalize_blank|reflexivity].
  - intros a attr H. rewrite get_name_eq. now rewrite H.
  - intros [a [Hin Hnone]]. cbn [r_affiliation].
    destruct (affiliation_fails _ _ Hin Hnone) as [e ->]. reflexivity.
Qed.



End RecordFacts.

(** * The keyword filter *)

Module FilterFacts.
Import Str StrFacts RecordFacts.

Section Lookup.
Context {V : Type}.

Lemma lookup_in_keys (d : list (string * V)) (key : string) (v : V) :
  lookup d key = Some v -> In key (dict_keys d).
Proof.
  induction d as [|[k x] d IH]; simpl; [discriminate|].
  destruct (String.eqb_spec k key); auto.
Qed.

Lemma keys_in_lookup (d : list (string * V)) (key : string) :
  In key (dict_keys d) -> exists v, lookup d key = Some v.
Proof.
  induction d as [|[k x] d IH]; simpl; [contradiction|].
  destruct (String.eqb_spec k key) as [->|Hne]; [now exists x|].
  intros [H|H]; [contradiction | auto].
Qed.

Lemma lookup_in (d : list (string * V)) (key : string) (v : V) :
  lookup d key = Some v -> In (key, v) d.
Proof.
  induction d as [|[k x] d IH]; simpl; [discriminate|].
  destruct (String.eqb_spec k key) as [->|Hne]; [intros [= ->]|]; auto.
Qed.

Lemma getitem_Some (d : list (string * V)) (key : string) (v : V) :
  lookup d key = Some v -> getitem d key = Ok v.
Proof. unfold getitem. now intros ->. Qed.

Lemma getitem_None (d : list (string * V)) (key : string) :
  lookup d key = None -> getitem d key = Raise (KeyError key).
Proof. unfold getitem. now intros ->. Qed.
End Lookup.

(** *** The inner loop *)

Lemma words_loop_found {P : PyStr} record key v words save :
  lookup record key = Some v ->
  words_loop record key words save =
  Ok (save || existsb (fun w => py_in (str_lower w) v) words).
Proof.
  intros Hv. revert save.
  induction words as [|w ws IH]; intros save; cbn [words_loop existsb].
  - now rewrite orb_false_r.
  - rewrite (getitem_Some _ _ _ Hv). cbn [bind]. rewrite IH.
    destruct (py_in (str_lower w) v), save; reflexivity.
Qed.

Lemma words_loop_absent {P : PyStr} record key w ws save :
  lookup record key = None ->
  words_loop record key (w :: ws) save = Raise (KeyError key).
Proof.
  intros H. cbn [words_loop]. now rewrite (getitem_None _ _ H).
Qed.

Lemma words_loop_total {P : PyStr} record key words save :
  (lookup record key = None -> words = []) ->
  words_loop record key words save = Ok (save || words_match record key words).
Proof.
  unfold words_match. intros H.
  destruct (lookup record key) as [v|] eqn:E.
  - now apply words_loop_found.
  - rewrite (H eq_refl). cbn [words_loop]. now rewrite orb_false_r.
Qed.

(** *** The outer loop *)

Lemma keys_loop_total {P : PyStr} filters record ks save :
  incl ks (dict_keys filters) ->
  (forall key words,
     lookup filters key = Some words -> lookup record key = None ->
     words = []) ->
  keys_loop filters record ks save =
  Ok (save || keys_match filters record ks).
Proof.
  intros Hks Hpresent. revert save.
  induction ks as [|key rest IH]; intros save; cbn [keys_loop keys_match existsb].
  - now rewrite orb_false_r.
  - destruct (keys_in_lookup filters key (Hks key (or_introl eq_refl)))
      as [words Hw].
    rewrite (getitem_Some _ _ _ Hw), Hw. cbn [bind].
    rewrite (words_loop_total record key words save (Hpresent key words Hw)).
    cbn [bind]. rewrite IH.
    + unfold keys_match. now rewrite orb_assoc.
    + intros k Hk. apply Hks. now right.
Qed.

Lemma keys_loop_raises {P : PyStr} filters record ks save :
  incl ks (dict_keys filters) ->
  (exists key words,
     In key ks /\ lookup filters key = Some words /\ words <> [] /\
     lookup record key = None) ->
  exists k, keys_loop filters record ks save = Raise (KeyError k) /\
            lookup record k = None.
Proof.
  intros Hks. revert save.
  induction ks as [|key rest IH]; intros save (bad & ws & Hin & Hf & Hne & Hr);
    [contradiction|].
  cbn [keys_loop].
  destruct (keys_in_lookup filters key (Hks key (or_introl eq_refl)))
    as [words Hw].
  rewrite (getitem_Some _ _ _ Hw). cbn [bind].
  assert (Hrest : incl rest (dict_keys filters))
    by (intros k Hk; apply Hks; now right).
  destruct (lookup record key) as [v|] eqn:E.
  - rewrite (words_loop_found _ _ _ _ _ E). cbn [bind].
    apply (IH Hrest). exists bad, ws. repeat split; auto.
    destruct Hin as [->|Hin]; [congruence | exact Hin].
  - destruct words as [|w words'].
    + cbn [words_loop bind]. apply (IH Hrest). exists bad, ws.
      repeat split; auto.
      destruct Hin as [->|Hin]; [congruence | exact Hin].
    + rewrite (words_loop_absent _ _ _ _ _ E). cbn [bind]. now exists key.
Qed.

Lemma keys_match_spec {P : PyStr} filters record :
  keys_match filters record (dict_keys filters) = true <->
  some_pair (fun w v => py_in (str_lower w) v = true) filters record.
Proof.
  unfold keys_match, some_pair, words_match. rewrite existsb_exists. split.
  - intros (key & _ & H).
    destruct (lookup filters key) as [words|] eqn:Ef; [|discriminate].
    destruct (lookup record key) as [v|] eqn:Er; [|discriminate].
    apply existsb_exists in H. destruct H as (w & Hw & Hm).
    now exists key, words, w, v.
  - intros (key & words & w & v & Hf & Hw & Hr & Hm).
    exists key. split; [now apply (lookup_in_keys _ _ _ Hf)|].
    rewrite Hf, Hr. apply existsb_exists. now exists w.
Qed.

(** *** What [__init__] sets up for the filter *)

Lemma init_filter_fields today category date_from date_until t0 timeout0
    filters0 self :
  Scraper_init today category date_from date_until t0 timeout0 filters0
    = Ok self ->
  filters self = filters0 /\
  append_all self = match filters0 with [] => true | _ => false end /\
  (filters0 <> [] -> keys self = Some (dict_keys filters0)).
Proof.
  unfold Scraper_init.
  destruct (match date_from with
            | None => _
            | Some d => _
            end) as [bound|]; cbn [bind]; [|discriminate].
  destruct (match date_until with
            | None => _
            | Some d => _
            end) as [u0|]; cbn [bind]; [|discriminate].
  destruct filters0; intros [= <-]; cbn; repeat split; congruence.
Qed.

Lemma save_record_eq {P : PyStr} self record :
  keys self = Some (dict_keys (filters self)) ->
  save_record self record =
  keys_loop (filters self) record (dict_keys (filters self)) false.
Proof. unfold save_record, getattr_keys. now intros ->. Qed.

(** *** The test on a value *)


Lemma output_keys (r : ArxivRecord) : dict_keys (output r) = record_keys.
Proof. reflexivity. Qed.






(** C5, as the code has it: under a non-empty configuration, if some
    configured field with at least one substring is not a key of the record,
    evaluating the filter raises KeyError for a key that the record lacks;
    if every configured field that the record lacks has an empty substring
    list, the evaluation returns a boolean. *)
Theorem absent_field_lookup {P : PyStr} today category date_from date_until t0 timeout0
    filters0 self (record : pydict) :
  Scraper_init today category date_from date_until t0 timeout0 filters0
    = Ok self ->
  filters0 <> [] ->
  ((exists key words,
      lookup filters0 key = Some words /\ words <> [] /\
      lookup record key = None) ->
   exists k, save_record self record = Raise (KeyError k) /\
             lookup record k = None) /\
  ((forall key words,
      lookup filters0 key = Some words -> lookup record key = None ->
      words = []) ->
   save_record self record =
   Ok (keys_match filters0 record (dict_keys filters0))).
Proof.
  intros Hinit Hne.
  destruct (init_filter_fields _ _ _ _ _ _ _ _ Hinit) as (Hf & Ha & Hk).
  rewrite (save_record_eq self record) by (rewrite Hf; auto).
  rewrite Hf. split.
  - intros (key & words & Hw & Hwne & Hr).
    apply keys_loop_raises; [apply incl_refl|].
    exists key, words. repeat split; auto.
    apply (lookup_in_keys _ _ _ Hw).
  - intros H. now rewrite keys_loop_total; [|apply incl_refl|exact H].
Qed.

Lemma absent_field_lookup_witness :
  exists k,
    save_record (Sample.the_scraper Sample.journal_filter)
      (Sample.the_record Sample.paper) = Raise (KeyError k) /\
    lookup (Sample.the_record Sample.paper) k = None.
Proof.
  apply (absent_field_lookup Sample.today "cs" None None 30 300
           Sample.journal_filter (Sample.the_scraper Sample.journal_filter)
           (Sample.the_record Sample.paper)).
  - reflexivity.
  - discriminate.
  - exists "journal", ["x"]. repeat split. discriminate.
Defined.

(** C5 fails: the configured field "journal" is not a key of the record and
    the filter raises KeyError; with an empty substring list the same field
    is passed over. *)
Lemma absent_field_raises :
  lookup (Sample.the_record Sample.paper) "journal" = None /\
  raises (save_record (Sample.the_scraper Sample.journal_filter)
            (Sample.the_record Sample.paper)) = true /\
  save_record (Sample.the_scraper Sample.journal_filter)
    (Sample.the_record Sample.paper) = Raise (KeyError "journal") /\
  append_record (Sample.the_scraper Sample.journal_filter) []
    (Sample.the_record Sample.paper) = Raise (KeyError "journal") /\
  save_record (Sample.the_scraper Sample.empty_words_filter)
    (Sample.the_record Sample.paper) = Ok false.
Proof. repeat split. Qed.

End FilterFacts.

(** * The fetch loop *)

Module ScrapeFacts.
Import Str StrFacts RecordFacts FilterFacts.

(** *** One page of records *)

Lemma append_record_filtered {P : PyStr} self ds d ds1 :
  append_all self = false ->
  append_record self ds d = Ok ds1 ->
  ds1 = (ds ++ filter (kept self) [d])%list.
Proof.
  unfold append_record, kept. intros -> H. cbn [filter].
  destruct (save_record self d) as [b|e]; cbn [bind] in H; [|discriminate].
  destruct b; injection H as <-; [reflexivity | now rewrite List.app_nil_r].
Qed.

Lemma records_loop_filtered {P : PyStr} self records :
  append_all self = false ->
  forall ds ds',
    records_loop self ds records = Ok ds' ->
    exists dicts,
      Forall2 (fun rec d => record_dict rec = Ok d) records dicts /\
      ds' = (ds ++ filter (kept self) dicts)%list.
Proof.
  intros Ha. induction records as [|rec rest IH]; intros ds ds' H.
  - injection H as <-. exists []. split; [constructor|].
    now rewrite List.app_nil_r.
  - cbn [records_loop] in H. unfold process_record in H.
    destruct (record_dict rec) as [d|] eqn:Ed; cbn [bind] in H; [|discriminate].
    destruct (append_record self ds d) as [ds1|] eqn:E1; cbn [bind] in H;
      [|discriminate].
    destruct (IH ds1 ds' H) as (dicts & HF & ->).
    exists (d :: dicts). split; [now constructor|].
    rewrite (append_record_filtered self ds d ds1 Ha E1).
    rewrite <- List.app_assoc. f_equal.
    cbn [filter]. now destruct (kept self d).
Qed.

Lemma filter_length_le {A} (p : A -> bool) (l : list A) :
  length (filter p l) <= length l.
Proof.
  induction l as [|a l IH]; simpl; [lia|]. destruct (p a); simpl; lia.
Qed.

Lemma Forall2_same_length {A B} (R : A -> B -> Prop) l l' :
  Forall2 R l l' -> length l = length l'.
Proof. induction 1; simpl; congruence. Qed.

(** C10: under a configuration that is not empty (so [append_all] is off),
    the list after a page is the list before it followed by the records of
    the page that the filter keeps, each occurrence at most once and in feed
    order, however many configured pairs match it: the dictionaries of the
    page filtered by one boolean per record. *)
Theorem record_appended_at_most_once {P : PyStr} self (ds ds' : list pydict)
    (records : list Element) :
  append_all self = false ->
  records_loop self ds records = Ok ds' ->
  exists dicts,
    Forall2 (fun rec d => record_dict rec = Ok d) records dicts /\
    ds' = (ds ++ filter (kept self) dicts)%list /\
    length ds' <= length ds + length records.
Proof.
  intros Ha H.
  destruct (records_loop_filtered self records Ha ds ds' H) as (dicts & HF & ->).
  exists dicts. repeat split; auto.
  rewrite length_app, (Forall2_same_length _ _ _ HF).
  pose proof (filter_length_le (kept self) dicts). lia.
Qed.

Lemma record_appended_at_most_once_witness :
  exists dicts,
    Forall2 (fun rec d => record_dict rec = Ok d)
      [Sample.record_of Sample.paper; Sample.record_of Sample.untrimmed_paper]
      dicts /\
    [Sample.the_record Sample.paper] =
      ([] ++ filter (kept (Sample.the_scraper Sample.many_filter)) dicts)%list /\
    length [Sample.the_record Sample.paper] <= length (@nil pydict) + 2.
Proof.
  apply (record_appended_at_most_once (Sample.the_scraper Sample.many_filter)
           [] [Sample.the_record Sample.paper]
           [Sample.record_of Sample.paper;
            Sample.record_of Sample.untrimmed_paper]);
    reflexivity.
Defined.

(** *** Running the loop *)

Section Loop.
Context {P : PyStr} {T : Type} {ops : TimeOps T}.
Variable self : Scraper.
Variable clock : nat -> T.

Lemma loop_app (t0 : T) (s1 s2 : list http_outcome) :
  forall (st st' : loop_state T),
    snd (loop self clock t0 s1 st) = Pending st' ->
    loop self clock t0 (s1 ++ s2)%list st =
    emit (fst (loop self clock t0 s1 st)) (loop self clock t0 s2 st').
Proof.
  induction s1 as [|o s1 IH]; intros st st' H.
  - cbn in H. injection H as ->. cbn [loop app fst]. unfold emit.
    now destruct (loop self clock t0 s2 st').
  - cbn [loop app] in *.
    destruct (snd (step self clock st o)) as [st1|st1| |e].
    + unfold emit in *. cbn [fst snd] in *.
      rewrite (IH st1 st' H). unfold emit. cbn [fst snd].
      now rewrite List.app_assoc.
    + discriminate.
    + discriminate.
    + discriminate.
Qed.

Lemma findall2_no_container (root : Element) (a b : string) :
  find root a = None -> findall2 root a b = [].
Proof.
  unfold find, findall2. intros H.
  assert (E : filter (fun c => String.eqb (tag c) a) (children root) = []).
  { induction (children root) as [|c l IH]; [reflexivity|].
    cbn [List.find filter] in *.
    destruct (String.eqb (tag c) a); [discriminate | auto]. }
  now rewrite E.
Qed.

Lemma on_page_no_container (st : loop_state T) (root : Element) :
  find root (OAI ++ "ListRecords") = None ->
  on_page self clock st root = ReturnOne.
Proof.
  intros H. unfold on_page.
  rewrite (findall2_no_container root _ _ H). cbn [records_loop].
  unfold find_token. cbn [py_find bind]. now rewrite H.
Qed.

(** *** The 503 branch *)


Lemma other_status_propagates (st : loop_state T) code hdrs :
  code <> 503%Z ->
  step self clock st (HttpFailure code hdrs) =
  ([EvPrintFetching (1000 * ls_k st); EvGet (ls_url st)],
   Throw (HTTPError code hdrs)).
Proof.
  intros H. unfold step, on_http_error.
  destruct (Z.eqb_spec code 503); [contradiction | reflexivity].
Qed.

Lemma unparsable_retry_after_raises (st : loop_state T) hdrs e :
  retry_after hdrs = Raise e ->
  step self clock st (HttpFailure 503 hdrs) =
  ([EvPrintFetching (1000 * ls_k st); EvGet (ls_url st)], Throw e).
Proof.
  intros H. unfold step, on_http_error. cbn [Z.eqb Pos.eqb].
  now rewrite H.
Qed.

Lemma http_failure_keeps_state (st st' : loop_state T) code hdrs :
  snd (step self clock st (HttpFailure code hdrs)) = Continue st' ->
  st' = st.
Proof.
  unfold step, on_http_error. cbn [snd].
  destruct (code =? 503)%Z; [|discriminate].
  destruct (retry_after hdrs); [|discriminate].
  destruct (t self <? 0)%Z; [discriminate|]. now intros [= <-].
Qed.

Lemma http_failure_never_breaks (st st' : loop_state T) code hdrs :
  snd (step self clock st (HttpFailure code hdrs)) <> Break st'.
Proof.
  unfold step, on_http_error. cbn [snd].
  destruct (code =? 503)%Z; [|discriminate].
  destruct (retry_after hdrs); [|discriminate].
  destruct (t self <? 0)%Z; discriminate.
Qed.

(** *** The accumulated time *)

Lemma pages_step (o : http_outcome) (rest : list http_outcome) :
  pages (o :: rest) =
  match o with Response _ => S (pages rest) | _ => pages rest end.
Proof. unfold pages. cbn [filter]. now destruct o. Qed.

Lemma on_page_continue_time (st st' : loop_state T) (root : Element) :
  on_page self clock st root = Continue st' ->
  ls_elapsed st' =
    t_add (ls_elapsed st) (t_sub (clock (ls_ticks st)) (ls_tx st)) /\
  ls_tx st' = clock (S (ls_ticks st)) /\
  ls_ticks st' = S (S (ls_ticks st)).
Proof.
  unfold on_page.
  destruct (records_loop self (ls_ds st) _) as [ds|]; [|discriminate].
  destruct (find_token root) as [token|]; [|discriminate].
  destruct (token_text token) as [txt|]; [|discriminate].
  unfold check_budget. cbn [ls_elapsed ls_tx ls_ticks].
  destruct (t_ge _ _); [discriminate|].
  intros [= <-]. cbn. auto.
Qed.

Lemma loop_pending_time (t0 : T) (script : list http_outcome) :
  forall (st st' : loop_state T) (n : nat),
    ls_elapsed st = elapsed_after clock n ->
    ls_tx st = clock (2 * n + 1) ->
    ls_ticks st = 2 * n + 2 ->
    snd (loop self clock t0 script st) = Pending st' ->
    ls_elapsed st' = elapsed_after clock (n + pages script) /\
    ls_tx st' = clock (2 * (n + pages script) + 1) /\
    ls_ticks st' = 2 * (n + pages script) + 2.
Proof.
  induction script as [|o rest IH]; intros st st' n Hel Htx Hticks.
  - cbn. intros [= <-]. rewrite Nat.add_0_r. auto.
  - cbn [loop]. rewrite pages_step.
    destruct (snd (step self clock st o)) as [st1|st1| |e] eqn:E;
      unfold emit; cbn [snd finish]; try discriminate.
    intros Hp. destruct o as [root| |code hdrs|]; cbn [step snd] in E;
      try discriminate.
    + apply on_page_continue_time in E. destruct E as (E1 & E2 & E3).
      replace (n + S (pages rest)) with (S n + pages rest) by lia.
      apply (IH st1 st' (S n)); [| | |exact Hp].
      * rewrite E1, Hel, Htx, Hticks. reflexivity.
      * rewrite E2, Hticks. f_equal. lia.
      * rewrite E3, Hticks. lia.
    + apply http_failure_keeps_state in E. subst st1.
      now apply (IH st st' n).
Qed.

Lemma below_budget (x : T) (z : Z) :
  QArith_base.Qlt (t_val x) (QArith_base.inject_Z z) -> t_ge x z = false.
Proof.
  intros Hlt. destruct (t_ge x z) eqn:E; [|reflexivity].
  apply t_ge_spec in E. now apply QArith_base.Qlt_not_le in Hlt.
Qed.

End Loop.

Lemma step_changes_state_on_page_only {P : PyStr} {T : Type} {ops : TimeOps T}
    (self : Scraper) (clock : nat -> T) (st st' : loop_state T)
    (o : http_outcome) :
  snd (step self clock st o) = Continue st' \/
  snd (step self clock st o) = Break st' ->
  (exists root, o = Response root) \/ st' = st.
Proof.
  destruct o as [root| |code hdrs|]; cbn [step snd].
  - intros _. left. now exists root.
  - intros [H|H]; discriminate.
  - intros [H|H].
    + right. apply (http_failure_keeps_state self clock st st' code hdrs H).
    + now apply (http_failure_never_breaks self clock) in H.
  - intros [H|H]; discriminate.
Qed.

(** C1: whenever a fetched page has no ListRecords child, [scrape] stops
    there, whatever the server would answer next, and returns the integer
    1: no exception, and a value that is not a list, so neither the normal
    end of pages nor an empty result. *)
Theorem missing_container_returns_one {P : PyStr} {T : Type} {ops : TimeOps T}
    (self : Scraper) (clock : nat -> T) (before rest : list http_outcome)
    (st : loop_state T) (root : Element) :
  snd (scrape self clock before) = Pending st ->
  find root (OAI ++ "ListRecords") = None ->
  scrape self clock (before ++ Response root :: rest)%list =
    ((fst (scrape self clock before) ++
      [EvPrintFetching (1000 * ls_k st); EvGet (ls_url st)])%list,
     Returned (RInt 1)) /\
  (forall ds, RInt 1 <> RList ds) /\
  (forall e, (Returned (RInt 1) : outcome T) <> Raised e).
Proof.
  intros Hbefore Hnone. repeat split; try discriminate.
  unfold scrape in *. rewrite (loop_app self clock _ _ _ _ _ Hbefore).
  cbn [loop step snd fst]. rewrite (on_page_no_container self clock st root Hnone).
  reflexivity.
Qed.

Lemma missing_container_returns_one_witness :
  snd (scrape (Sample.the_scraper Sample.no_filter) Sample.clock
         [Sample.busy; Response Sample.page1; Response Sample.error_page;
          Response Sample.page2])
  = Returned (RInt 1).
Proof.
  pose proof (missing_container_returns_one
                (Sample.the_scraper Sample.no_filter) Sample.clock
                [Sample.busy; Response Sample.page1] [Response Sample.page2]
                (Sample.state_after (Sample.the_scraper Sample.no_filter)
                   [Sample.busy; Response Sample.page1])
                Sample.error_page) as H.
  destruct H as [H _]; [vm_compute; reflexivity | reflexivity |].
  cbn [app] in H. rewrite H. reflexivity.
Defined.

(** C2 at the failing input: the first reply is a 503 whose Retry-After
    header is an HTTP date.  Line 135 parses the header with [int] before
    sleeping, so the loop neither sleeps nor retries: [scrape] raises
    ValueError.  With a numeric header the same script sleeps the
    configured 30 seconds, asks for the same URL again and goes on. *)
Theorem retry_after_date_aborts :
  scrape (Sample.the_scraper Sample.no_filter) Sample.clock
    [Sample.busy_with_date; Response Sample.page1; Response Sample.page2]
  = ([EvPrintFetching 1000; EvGet (url (Sample.the_scraper Sample.no_filter))],
     Raised ValueError) /\
  fst (scrape (Sample.the_scraper Sample.no_filter) Sample.clock
         [Sample.busy; Response Sample.page1; Response Sample.page2])
  = [EvPrintFetching 1000; EvGet (url (Sample.the_scraper Sample.no_filter));
     EvPrintRetry 30; EvSleep 30;
     EvPrintFetching 1000; EvGet (url (Sample.the_scraper Sample.no_filter));
     EvPrintFetching 2000; EvGet (BASE ++ "resumptionToken=tok|1001");
     EvPrintCompleted 400%Z; EvPrintTotal 3].
Proof. split; reflexivity. Qed.

(** C3: the time is accumulated at page boundaries only, and cumulatively.
    While the loop is fetching, the accumulated time is the sum, over the
    pages received so far, of the reading taken when the page has been
    processed minus the reading taken when the previous page was done; a 503
    reply takes no reading and changes no variable (so the retries before a
    page fall inside that page's interval), and an HTTP failure never ends
    the loop.  When a page has been processed and carries a token, the
    interval of that page is added: if the sum is at least the budget,
    [scrape] returns the list accumulated so far, whatever the server would
    answer next; if it is below the budget, the loop goes on with the sum
    stored and a fresh starting reading. *)
Theorem budget_check_ends_scrape {P : PyStr} {T : Type} {ops : TimeOps T}
    (self : Scraper) (clock : nat -> T) (before rest : list http_outcome)
    (st : loop_state T) (root : Element) (ds' : list pydict)
    (token : option Element) (txt : string) :
  snd (scrape self clock before) = Pending st ->
  records_loop self (ls_ds st)
    (findall2 root (OAI ++ "ListRecords") (OAI ++ "record")) = Ok ds' ->
  find_token root = Ok token ->
  token_text token = Some txt ->
  (ls_elapsed st = elapsed_after clock (pages before) /\
   ls_tx st = clock (2 * pages before + 1) /\
   ls_ticks st = 2 * pages before + 2) /\
  (QArith_base.Qle (QArith_base.inject_Z (timeout self))
     (t_val (elapsed_after clock (S (pages before)))) ->
   scrape self clock (before ++ Response root :: rest)%list =
     ((fst (scrape self clock before) ++
       [EvPrintFetching (1000 * ls_k st); EvGet (ls_url st);
        EvPrintCompleted (t_sub (clock (S (ls_ticks st))) (clock 0));
        EvPrintTotal (length ds')])%list,
      Returned (RList ds'))) /\
  (QArith_base.Qlt (t_val (elapsed_after clock (S (pages before))))
     (QArith_base.inject_Z (timeout self)) ->
   scrape self clock (before ++ [Response root])%list =
     ((fst (scrape self clock before) ++
       [EvPrintFetching (1000 * ls_k st); EvGet (ls_url st)])%list,
      Pending (mkState (BASE ++ "resumptionToken=" ++ txt) ds' (ls_k st + 1)
                 (elapsed_after clock (S (pages before)))
                 (clock (S (ls_ticks st))) (S (S (ls_ticks st)))))) /\
  (forall st0 st1 o,
     snd (step self clock st0 o) = Continue st1 \/
     snd (step self clock st0 o) = Break st1 ->
     (exists page, o = Response page) \/ st1 = st0) /\
  (forall st0 st1 code hdrs,
     snd (step self clock st0 (HttpFailure code hdrs)) <> Break st1).
Proof.
  intros Hbefore Hrec Htok Htxt.
  assert (Hinv : ls_elapsed st = elapsed_after clock (pages before) /\
                 ls_tx st = clock (2 * pages before + 1) /\
                 ls_ticks st = 2 * pages before + 2).
  { unfold scrape in Hbefore.
    apply (loop_pending_time self clock (clock 0) before
             (mkState (url self) [] 1%Z t_zero (clock 1) 2) st 0
             eq_refl eq_refl eq_refl Hbefore). }
  destruct Hinv as (Hel & Htx & Hticks).
  assert (Hsum : t_add (ls_elapsed st)
                   (t_sub (clock (ls_ticks st)) (ls_tx st)) =
                 elapsed_after clock (S (pages before))).
  { cbn [elapsed_after]. now rewrite Hel, Htx, Hticks. }
  split; [auto|]. split; [|split; [|split]].
  - intros Hge. apply t_ge_spec in Hge.
    unfold scrape in *. rewrite (loop_app self clock _ _ _ _ _ Hbefore).
    cbn [loop step snd fst]. unfold on_page.
    rewrite Hrec, Htok, Htxt. unfold check_budget.
    cbn [ls_elapsed ls_tx ls_ticks ls_url ls_ds ls_k]. rewrite Hsum, Hge.
    reflexivity.
  - intros Hlt. apply below_budget in Hlt.
    unfold scrape in *. rewrite (loop_app self clock _ _ _ _ _ Hbefore).
    cbn [loop step snd fst]. unfold on_page.
    rewrite Hrec, Htok, Htxt. unfold check_budget.
    cbn [ls_elapsed ls_tx ls_ticks ls_url ls_ds ls_k]. rewrite Hsum, Hlt.
    unfold emit. cbn [fst snd loop]. now rewrite List.app_nil_r.
  - intros st0 st1 o. apply step_changes_state_on_page_only.
  - intros st0 st1 code hdrs. apply http_failure_never_breaks.
Qed.

Lemma budget_check_ends_scrape_witness :
  snd (scrape Sample.hasty_scraper Sample.clock
         [Sample.busy; Response Sample.page1; Response Sample.page2])
  = Returned (RList [Sample.the_record Sample.paper;
                     Sample.the_record Sample.untrimmed_paper]).
Proof.
  pose proof (budget_check_ends_scrape
                Sample.hasty_scraper Sample.clock
                [Sample.busy] [Response Sample.page2]
                (Sample.state_after Sample.hasty_scraper [Sample.busy])
                Sample.page1
                [Sample.the_record Sample.paper;
                 Sample.the_record Sample.untrimmed_paper]
                (Some (Sample.leaf OAI "resumptionToken" "tok|1001"))
                "tok|1001") as H.
  destruct H as (_ & H & _); [vm_compute; reflexivity ..|].
  cbn [app] in H. rewrite H; [reflexivity|].
  vm_compute. discriminate.
Defined.

End ScrapeFacts.

(** * Construction of the scraper *)

Module InitFacts.

Lemma init_from_omitted today yesterday category date_until t0 timeout0
    filters0 :
  date_minus_one_day today = Ok yesterday ->
  exists self,
    Scraper_init today category None date_until t0 timeout0 filters0
      = Ok self /\
    f self = date_str yesterday /\
    u self = match date_until with
             | Some d => d
             | None => date_str yesterday
             end /\
    url self = BASE ++ "from=" ++ f self ++ "&until=" ++ u self
                 ++ "&metadataPrefix=arXiv&set=" ++ category.
Proof.
  intros Hy. unfold Scraper_init. rewrite Hy. cbn [bind fst snd].
  destruct date_until as [d|]; cbn [bind];
    destruct filters0; (eexists; split; [reflexivity | cbn; auto]).
Qed.

Lemma init_both_supplied today category date_from date_until t0 timeout0
    filters0 :
  exists self,
    Scraper_init today category (Some date_from) (Some date_until) t0
      timeout0 filters0 = Ok self /\
    f self = date_from /\ u self = date_until.
Proof.
  unfold Scraper_init. cbn [bind fst snd].
  destruct filters0; (eexists; split; [reflexivity | cbn; auto]).
Qed.

(** C8 at the failing input, and at every input of its shape: with
    date-from supplied and date-until omitted, [__init__] reads the local
    variable [yesterday], which only the date-from branch assigns, and
    raises UnboundLocalError instead of resolving the bound to yesterday. *)
Theorem until_alone_omitted_raises (today : date) (category date_from : string)
    (t0 timeout0 : Z) (filters0 : filter_config) :
  Scraper_init today category (Some date_from) None t0 timeout0 filters0
  = Raise (UnboundLocalError "yesterday").
Proof. reflexivity. Qed.

End InitFacts.

(** * The renderer *)

Module HtmlFacts.
Import Str StrFacts RecordFacts.

Section Render.
Variable repr_list : list string -> string.

Lemma paragraph_output (r : ArxivRecord) :
  paragraph repr_list (output r) =
  Ok (NL ++ "        <p>" ++ anchor (r_url r) (r_title r) ++ "<br>" ++
      NL ++ "        " ++ Str.join ", " (r_authors r) ++
      NL ++ "        </p>" ++
      NL ++ "        ").
Proof. reflexivity. Qed.

Lemma paragraphs_outputs (rs : list ArxivRecord) :
  forall acc, exists s,
    paragraphs repr_list acc (map output rs) = Ok (acc ++ s).
Proof.
  induction rs as [|r rs IH]; intros acc; cbn [map paragraphs].
  - exists "". now rewrite app_nil_r.
  - rewrite paragraph_output. cbn [bind].
    destruct (IH (acc ++ NL ++ "        <p>" ++ anchor (r_url r) (r_title r)
                    ++ "<br>" ++ NL ++ "        "
                    ++ Str.join ", " (r_authors r) ++ NL ++ "        </p>"
                    ++ NL ++ "        ")) as [s Hs].
    rewrite Hs, app_assoc. eexists. reflexivity.
Qed.

Lemma paragraphs_split (l1 l2 : list pydict) (d : pydict) (p : string) :
  forall acc acc1,
    paragraphs repr_list acc l1 = Ok acc1 ->
    paragraph repr_list d = Ok p ->
    paragraphs repr_list acc (l1 ++ d :: l2)%list =
    paragraphs repr_list (acc1 ++ p) l2.
Proof.
  induction l1 as [|x l1 IH]; intros acc acc1 H1 Hp.
  - injection H1 as <-. cbn [app paragraphs]. now rewrite Hp.
  - cbn [app paragraphs] in *.
    destruct (paragraph repr_list x) as [px|]; cbn [bind] in *;
      [|discriminate].
    now apply IH.
Qed.

End Render.

Lemma paragraph_literal (repr_list : list string -> string) (d : pydict)
    (u t : string) (l : list string) :
  lookup d "url" = Some (VStr u) ->
  lookup d "title" = Some (VStr t) ->
  lookup d "authors" = Some (VList l) ->
  paragraph repr_list d = Ok (paragraph_text u t l).
Proof.
  intros Hu Ht Hl. unfold paragraph, getitem. rewrite Hu, Ht, Hl.
  cbn [bind format_value join_value]. unfold anchor, paragraph_text.
  rewrite !app_assoc. reflexivity.
Qed.

Lemma occurs_in_paragraph (u t : string) (l : list string) :
  occurs_in ("<a href='" ++ u ++ "' target='_blank'>" ++ t ++ "</a>")
    (paragraph_text u t l).
Proof.
  exists (NL ++ "        <p>").
  exists ("<br>" ++ NL ++ "        " ++ Str.join ", " l ++
          NL ++ "        </p>" ++ NL ++ "        ").
  unfold paragraph_text. rewrite !app_assoc. reflexivity.
Qed.

Lemma occurs_in_middle (w a b c : string) :
  occurs_in w b -> occurs_in w (a ++ b ++ c).
Proof.
  intros (pre & post & ->). exists (a ++ pre), (post ++ c).
  now rewrite !app_assoc.
Qed.

Lemma title_lowercased {P : PyStr} (xml : Element) (r : ArxivRecord) :
  Record_init (Some xml) = Ok r ->
  child_text xml (ARXIV ++ "title") = Some "A Study of X" ->
  r_title r = "a study of x".
Proof.
  intros Hr Ht.
  rewrite (@scalar_field_eq P xml r "title" r_title Hr) by (cbn; auto).
  rewrite get_text_eq, Ht. unfold normalize.
  rewrite (str_strip_ascii "A Study of X") by reflexivity.
  change (strip "A Study of X") with "A Study of X".
  rewrite (str_lower_ascii "A Study of X") by reflexivity.
  reflexivity.
Qed.

(** C9: for a fragment whose title element reads "A Study of X", the mapper
    gives the title "a study of x", and the text that [generate_html] writes
    for any list of mapped records holding this one contains, character for
    character, the anchor to the record's url whose visible text is that
    lowercased title.  The renderer itself does not normalize: for any
    dictionary with a url, a title and authors it writes the anchor with the
    title exactly as the dictionary holds it, upper case included. *)
Theorem title_round_trip {P : PyStr} (repr_list : list string -> string)
    (today yesterday : date) (xml : Element)
    (before after : list ArxivRecord) (filename : string) :
  date_minus_one_day today = Ok yesterday ->
  child_text xml (ARXIV ++ "title") = Some "A Study of X" ->
  exists r content,
    Record_init (Some xml) = Ok r /\
    r_title r = "a study of x" /\
    generate_html repr_list today
      (map output before ++ output r :: map output after)%list filename
      = Ok (filename, content) /\
    occurs_in ("<a href='" ++ r_url r ++ "' target='_blank'>a study of x</a>")
      content /\
    (forall (d : pydict) (u t : string) (l : list string),
       lookup d "url" = Some (VStr u) ->
       lookup d "title" = Some (VStr t) ->
       lookup d "authors" = Some (VList l) ->
       exists content',
         generate_html repr_list today [d] filename = Ok (filename, content') /\
         occurs_in ("<a href='" ++ u ++ "' target='_blank'>" ++ t ++ "</a>")
           content').
Proof.
  intros Hy Ht.
  destruct (record_construction_total xml) as [r Hr].
  pose proof (title_lowercased xml r Hr Ht) as Htitle.
  destruct (paragraphs_outputs repr_list before
              (html_header (date_str yesterday))) as [s1 H1].
  destruct (paragraphs_outputs repr_list after
              ((html_header (date_str yesterday) ++ s1) ++
               paragraph_text (r_url r) (r_title r) (r_authors r)))
    as [s2 H2].
  exists r. eexists. split; [exact Hr|]. split; [exact Htitle|].
  assert (Hgen : generate_html repr_list today
      (map output before ++ output r :: map output after)%list filename
      = Ok (filename,
            html_header (date_str yesterday) ++ s1 ++
            paragraph_text (r_url r) (r_title r) (r_authors r) ++
            s2 ++ "</div></div>")).
  { unfold generate_html, html_content. rewrite Hy. cbn [bind].
    rewrite (paragraphs_split repr_list _ _ _ _ _ _ H1
               (paragraph_literal repr_list (output r) (r_url r) (r_title r)
                  (r_authors r) eq_refl eq_refl eq_refl)).
    rewrite H2. cbn [bind]. now rewrite !app_assoc. }
  split; [exact Hgen|]. split.
  - assert (Hocc : occurs_in
        ("<a href='" ++ r_url r ++ "' target='_blank'>" ++ r_title r ++ "</a>")
        (html_header (date_str yesterday) ++ s1 ++
         paragraph_text (r_url r) (r_title r) (r_authors r) ++
         s2 ++ "</div></div>")).
    { rewrite <- (app_assoc (html_header (date_str yesterday)) s1).
      apply occurs_in_middle, occurs_in_paragraph. }
    rewrite Htitle in Hocc at 1. exact Hocc.
  - intros d u t l Hu Htt Hl. eexists. split.
    + unfold generate_html, html_content. rewrite Hy. cbn [bind paragraphs].
      rewrite (paragraph_literal repr_list d u t l Hu Htt Hl). cbn [bind].
      reflexivity.
    + rewrite app_assoc. apply occurs_in_middle, occurs_in_paragraph.
Qed.

Lemma title_round_trip_witness :
  exists r content,
    Record_init (Some Sample.paper) = Ok r /\
    r_title r = "a study of x" /\
    generate_html (fun _ => "") Sample.today
      (map output [] ++
       output r :: map output [Sample.the_object Sample.untrimmed_paper])%list
      "arxiv_papers.html"
      = Ok ("arxiv_papers.html", content) /\
    occurs_in ("<a href='" ++ r_url r ++ "' target='_blank'>a study of x</a>")
      content.
Proof.
  destruct (title_round_trip (fun _ => "") Sample.today (mkDate 2024 2 29)
              Sample.paper [] [Sample.the_object Sample.untrimmed_paper]
              "arxiv_papers.html" eq_refl eq_refl)
    as (r & content & Hr & Ht & Hg & Ho & _).
  exists r, content. repeat split; assumption.
Defined.

End HtmlFacts.

(** * Further properties of the Record Mapper *)

Module RecordProps.
Import Str StrFacts RecordFacts.

Lemma Record_init_Record_of {P : PyStr} (xml : Element) :
  Record_init (Some xml) = Ok (Record_of xml).
Proof. apply Record_init_ok. Qed.

Lemma affiliation_closed_form {P : PyStr} (authors : list Element) :
  affiliation_comprehension authors =
  if forallb (fun a => match child_text a (ARXIV ++ "affiliation") with
                       | Some _ => true
                       | None => false
                       end) authors
  then Ok (map (fun a => match child_text a (ARXIV ++ "affiliation") with
                         | Some s => str_lower s
                         | None => ""
                         end) authors)
  else Raise AttributeError.
Proof.
  induction authors as [|a rest IH]; [reflexivity|].
  rewrite affiliation_cons, IH. cbn [forallb map].
  destruct (child_text a (ARXIV ++ "affiliation")); [|reflexivity].
  cbn [andb]. now destruct (forallb _ rest).
Qed.

(** X1: the affiliation of a record is all or nothing: when every author
    element has an affiliation child with a text, it is the list of those
    texts in lower case, one per author and in document order; as soon as one
    author has none, it is empty.  So its length is 0 or the number of
    authors. *)
Theorem affiliation_all_or_nothing {P : PyStr} (xml : Element) :
  exists r,
    Record_init (Some xml) = Ok r /\
    r_affiliation r =
      (if forallb (fun a => match child_text a (ARXIV ++ "affiliation") with
                            | Some _ => true
                            | None => false
                            end) (authors_xml xml)
       then map (fun a => match child_text a (ARXIV ++ "affiliation") with
                          | Some s => str_lower s
                          | None => ""
                          end) (authors_xml xml)
       else []) /\
    (length (r_affiliation r) = 0 \/
     length (r_affiliation r) = length (r_authors r)).
Proof.
  exists (Record_of xml). split; [apply Record_init_Record_of|].
  cbn [Record_of r_affiliation r_authors].
  rewrite affiliation_closed_form.
  destruct (forallb _ (authors_xml xml)); cbn [try_except].
  - split; [reflexivity|]. right. now rewrite !length_map.
  - split; [reflexivity|]. now left.
Qed.

Lemma replace_absent (a b : ascii) (s : string) :
  mem_char a s = false -> replace_char a b s = s.
Proof.
  induction s as [|c s IH]; cbn [mem_char replace_char]; [reflexivity|].
  intros H. apply orb_false_iff in H. destruct H as [Hc Hs].
  now rewrite Hc, IH.
Qed.

(** X2: a value that is already trimmed, in lower case and free of
    newlines passes through the pipeline of [_get_text] unchanged; and for
    ASCII text the value that [_get_text] computes is of that kind, so that
    applying the pipeline a second time changes nothing. *)
Theorem normalize_fixed_points {P : PyStr} (raw : string) :
  is_ascii raw = true ->
  (forall v, normalized v -> normalize v = v) /\
  normalized (normalize raw) /\
  normalize (normalize raw) = normalize raw.
Proof.
  intros Hraw.
  assert (Hfix : forall x, normalized x -> normalize x = x).
  { intros x (Hs & Hl & Hn). unfold normalize.
    now rewrite Hs, Hl, replace_absent. }
  assert (Hnorm : normalized (normalize raw)).
  { unfold normalize. destruct (pipeline_ascii raw Hraw) as [-> Hascii].
    unfold normalized. repeat split.
    - rewrite (str_strip_ascii _ Hascii).
      now rewrite strip_replace_nl, strip_lower, strip_idem.
    - rewrite (str_lower_ascii _ Hascii). apply lower_replace_nl.
    - apply no_nl_after_replace. }
  split; [exact Hfix|]. split; [exact Hnorm|]. now apply Hfix.
Qed.

Lemma normalize_fixed_points_witness :
  normalize (normalize (" A Study" ++ NL ++ "of X ")) = "a study of x".
Proof.
  destruct (normalize_fixed_points (" A Study" ++ NL ++ "of X ") eq_refl)
    as (_ & _ & H).
  rewrite H. reflexivity.
Defined.

Lemma record_dict_eq {P : PyStr} (record : Element) :
  record_dict record =
  match fragment_of record with
  | Some meta => Ok (output (Record_of meta))
  | None => Raise AttributeError
  end.
Proof.
  unfold record_dict, fragment_of. cbn [py_find bind].
  destruct (find record (OAI ++ "metadata")) as [md|]; cbn [py_find bind];
    [|reflexivity].
  destruct (find md (ARXIV ++ "arXiv")) as [meta|]; [|reflexivity].
  now rewrite Record_init_Record_of.
Qed.

End RecordProps.

(** * Further properties of the keyword filter *)

Module FilterProps.
Import Str StrFacts RecordFacts FilterFacts RecordProps.

Lemma process_record_unfiltered {P : PyStr} self ds record :
  append_all self = true ->
  process_record self ds record =
  match fragment_of record with
  | Some _ => Ok (ds ++ [dict_of record])%list
  | None => Raise AttributeError
  end.
Proof.
  intros Ha. unfold process_record, append_record, dict_of.
  rewrite record_dict_eq, Ha.
  now destruct (fragment_of record).
Qed.

Lemma records_loop_unfiltered {P : PyStr} self (ds : list pydict)
    (records : list Element) :
  append_all self = true ->
  records_loop self ds records =
  if forallb has_fragment records
  then Ok (ds ++ map dict_of records)%list
  else Raise AttributeError.
Proof.
  intros Ha. revert ds.
  induction records as [|rec rest IH]; intros ds; cbn [records_loop forallb map].
  - now rewrite List.app_nil_r.
  - rewrite (process_record_unfiltered self ds rec Ha).
    assert (Hh : has_fragment rec = match fragment_of rec with
                                    | Some _ => true
                                    | None => false
                                    end) by reflexivity.
    rewrite Hh.
    destruct (fragment_of rec) as [meta|]; cbn [bind andb]; [|reflexivity].
    rewrite IH. destruct (forallb has_fragment rest); [|reflexivity].
    now rewrite <- List.app_assoc.
Qed.

(** X3: without a filter, a page whose record elements all carry an arXiv
    fragment appends the dictionary of every record, in feed order; if one
    record has no fragment (no metadata child, or a metadata child without
    an arXiv child), processing the page raises AttributeError. *)
Theorem unfiltered_page_keeps_all {P : PyStr} self (ds : list pydict)
    (records : list Element) :
  append_all self = true ->
  records_loop self ds records =
  if forallb has_fragment records
  then Ok (ds ++ map dict_of records)%list
  else Raise AttributeError.
Proof.
  intros Ha. exact (records_loop_unfiltered self ds records Ha).
Qed.

Lemma unfiltered_page_keeps_all_witness :
  records_loop (Sample.the_scraper Sample.no_filter) []
    [Sample.record_of Sample.paper; Sample.record_of Sample.untrimmed_paper]
  = Ok [Sample.the_record Sample.paper;
        Sample.the_record Sample.untrimmed_paper].
Proof.
  rewrite (unfiltered_page_keeps_all (Sample.the_scraper Sample.no_filter) []
             [Sample.record_of Sample.paper;
              Sample.record_of Sample.untrimmed_paper] eq_refl).
  reflexivity.
Defined.

(** *** The configured substrings *)

Lemma lookup_lower_config {P : PyStr} (filters : filter_config)
    (key : string) :
  lookup (lower_config filters) key =
  option_map (map str_lower) (lookup filters key).
Proof.
  induction filters as [|[k ws] rest IH]; [reflexivity|].
  cbn [lower_config map lookup fst snd].
  destruct (String.eqb k key); [reflexivity | exact IH].
Qed.

Lemma keys_lower_config {P : PyStr} (filters : filter_config) :
  dict_keys (lower_config filters) = dict_keys filters.
Proof.
  unfold dict_keys, lower_config. rewrite map_map. reflexivity.
Qed.

Lemma str_lower_twice {P : PyStr} (w : string) :
  is_ascii w = true -> str_lower (str_lower w) = str_lower w.
Proof.
  intros H. rewrite (str_lower_ascii w H).
  rewrite (str_lower_ascii _ (is_ascii_lower w H)). apply lower_idem.
Qed.

Lemma words_loop_lower {P : PyStr} record key words :
  Forall (fun w => is_ascii w = true) words ->
  forall save,
    words_loop record key (map str_lower words) save =
    words_loop record key words save.
Proof.
  induction 1 as [|w ws Hw Hws IH]; intros save; [reflexivity|].
  cbn [map words_loop]. destruct (getitem record key) as [v|e]; cbn [bind];
    [|reflexivity].
  now rewrite (str_lower_twice w Hw), IH.
Qed.

Lemma keys_loop_lower {P : PyStr} filters record ks :
  ascii_config filters ->
  forall save,
    keys_loop (lower_config filters) record ks save =
    keys_loop filters record ks save.
Proof.
  intros Hascii.
  induction ks as [|key rest IH]; intros save; [reflexivity|].
  cbn [keys_loop]. unfold getitem. rewrite lookup_lower_config.
  destruct (lookup filters key) as [ws|] eqn:E; cbn [option_map bind];
    [|reflexivity].
  rewrite words_loop_lower.
  - destruct (words_loop record key ws save); cbn [bind];
      [apply IH|reflexivity].
  - apply lookup_in in E. unfold ascii_config in Hascii.
    rewrite Forall_forall in Hascii. apply (Hascii _ E).
Qed.

(** X4: the letter case of configured ASCII substrings is irrelevant: when
    every configured substring is ASCII text, a scraper built with every
    substring put in lower case evaluates the filter on every record mapping
    exactly as the one built with the substrings as given, the same list or
    the same exception. *)
Theorem configured_case_irrelevant {P : PyStr} today category date_from
    date_until t0 timeout0 filters0 self self' (record : pydict) :
  Scraper_init today category date_from date_until t0 timeout0 filters0
    = Ok self ->
  Scraper_init today category date_from date_until t0 timeout0
    (lower_config filters0) = Ok self' ->
  ascii_config filters0 ->
  forall ds, append_record self' ds record = append_record self ds record.
Proof.
  intros H H' Hascii ds.
  destruct (init_filter_fields _ _ _ _ _ _ _ _ H) as (Hf & Ha & Hk).
  destruct (init_filter_fields _ _ _ _ _ _ _ _ H') as (Hf' & Ha' & Hk').
  unfold append_record. rewrite Ha, Ha'.
  destruct filters0 as [|p rest] eqn:E; [reflexivity|].
  rewrite <- E in *.
  assert (Hne : filters0 <> []) by (rewrite E; discriminate).
  assert (Hne' : lower_config filters0 <> [])
    by (rewrite E; discriminate).
  rewrite E at 1. cbn [lower_config map].
  rewrite (save_record_eq self record) by (rewrite Hf; auto).
  rewrite (save_record_eq self' record) by (rewrite Hf'; auto).
  now rewrite Hf, Hf', keys_lower_config, keys_loop_lower.
Qed.

Lemma configured_case_irrelevant_witness :
  append_record
    (Sample.the_scraper (lower_config Sample.abstract_filter)) []
    (Sample.the_record Sample.paper)
  = append_record (Sample.the_scraper Sample.abstract_filter) []
      (Sample.the_record Sample.paper).
Proof.
  apply (configured_case_irrelevant Sample.today "cs" None None 30 300
           Sample.abstract_filter); [reflexivity | reflexivity |].
  repeat constructor.
Defined.

Lemma keys_match_no_words {P : PyStr} filters record ks :
  Forall (fun p => snd p = []) filters ->
  keys_match filters record ks = false.
Proof.
  intros Hall. unfold keys_match.
  induction ks as [|key rest IH]; [reflexivity|]. cbn [existsb].
  rewrite IH, orb_false_r.
  destruct (lookup filters key) as [ws|] eqn:E; [|reflexivity].
  apply lookup_in in E. rewrite Forall_forall in Hall.
  specialize (Hall _ E). cbn in Hall. subst ws.
  unfold words_match. now destruct (lookup record key).
Qed.

(** X5: a configuration that names fields but gives none of them a
    substring is not the empty configuration: it drops every record, whatever
    the record mapping holds, and never raises, even for a field the record
    lacks. *)
Theorem wordless_configuration_drops_all {P : PyStr} today category date_from date_until
    t0 timeout0 filters0 self (record : pydict) (ds : list pydict) :
  Scraper_init today category date_from date_until t0 timeout0 filters0
    = Ok self ->
  filters0 <> [] ->
  Forall (fun p => snd p = []) filters0 ->
  append_record self ds record = Ok ds.
Proof.
  intros Hinit Hne Hall.
  destruct (init_filter_fields _ _ _ _ _ _ _ _ Hinit) as (Hf & Ha & Hk).
  unfold append_record. rewrite Ha.
  destruct filters0 as [|p rest] eqn:E; [contradiction|]. rewrite <- E in *.
  rewrite (save_record_eq self record) by (rewrite Hf; auto).
  rewrite Hf, keys_loop_total.
  - now rewrite (keys_match_no_words filters0 record _ Hall).
  - apply incl_refl.
  - intros key words Hw _. apply lookup_in in Hw.
    rewrite Forall_forall in Hall. apply (Hall _ Hw).
Qed.

Lemma wordless_configuration_drops_all_witness :
  append_record (Sample.the_scraper Sample.empty_words_filter) []
    (Sample.the_record Sample.paper) = Ok [].
Proof.
  apply (wordless_configuration_drops_all Sample.today "cs" None None 30 300
           Sample.empty_words_filter).
  - reflexivity.
  - discriminate.
  - repeat constructor.
Defined.

(** X6: the empty string as a configured substring matches every
    string-valued field: when no configured field with substrings is missing
    from the record, a pair (field, "") on a field that holds a string
    retains the record. *)
Theorem empty_substring_matches {P : PyStr} today category date_from date_until
    t0 timeout0 filters0 self (record : pydict) (ds : list pydict)
    (key : string) (words : list string) (s : string) :
  Scraper_init today category date_from date_until t0 timeout0 filters0
    = Ok self ->
  (forall k ws,
     lookup filters0 k = Some ws -> lookup record k = None -> ws = []) ->
  lookup filters0 key = Some words ->
  In "" words ->
  lookup record key = Some (VStr s) ->
  append_record self ds record = Ok (ds ++ [record])%list.
Proof.
  intros Hinit Hpresent Hw Hin Hr.
  destruct (init_filter_fields _ _ _ _ _ _ _ _ Hinit) as (Hf & Ha & Hk).
  unfold append_record. rewrite Ha.
  destruct filters0 as [|p rest] eqn:E; [discriminate|]. rewrite <- E in *.
  assert (Hne : filters0 <> []) by (rewrite E; discriminate).
  rewrite (save_record_eq self record) by (rewrite Hf; auto).
  rewrite Hf, keys_loop_total; [|apply incl_refl|exact Hpresent].
  assert (Hm : keys_match filters0 record (dict_keys filters0) = true).
  { apply keys_match_spec. exists key, words, "", (VStr s).
    repeat split; auto. rewrite str_lower_empty. cbn. now destruct s. }
  now rewrite Hm.
Qed.

Lemma empty_substring_matches_witness :
  append_record (Sample.the_scraper [("doi", [""])]) []
    (Sample.the_record Sample.paper)
  = Ok [Sample.the_record Sample.paper].
Proof.
  apply (empty_substring_matches Sample.today "cs" None None 30 300
           [("doi", [""])] (Sample.the_scraper [("doi", [""])])
           (Sample.the_record Sample.paper) [] "doi" [""] "").
  - reflexivity.
  - intros k ws H. cbn [lookup] in H.
    destruct (String.eqb_spec "doi" k) as [<-|]; [|discriminate].
    discriminate.
  - reflexivity.
  - now left.
  - reflexivity.
Defined.

End FilterProps.

(** * Further properties of the fetch loop *)

Module ScrapeProps.
Import Str StrFacts RecordFacts FilterFacts ScrapeFacts RecordProps FilterProps.

(** *** What a page contributes *)

Lemma append_record_acc {P : PyStr} self ds d :
  append_record self ds d =
  (l <- append_record self [] d ;; Ok (ds ++ l)%list).
Proof.
  unfold append_record. destruct (append_all self); [reflexivity|].
  destruct (save_record self d) as [[|]|e]; cbn [bind app]; try reflexivity.
  now rewrite List.app_nil_r.
Qed.

Lemma process_record_acc {P : PyStr} self ds record :
  process_record self ds record =
  (l <- process_record self [] record ;; Ok (ds ++ l)%list).
Proof.
  unfold process_record.
  destruct (record_dict record) as [d|e]; cbn [bind]; [|reflexivity].
  apply append_record_acc.
Qed.

Lemma records_loop_on_top {P : PyStr} self (records : list Element) (ds : list pydict) :
  records_loop self ds records =
  (l <- records_loop self [] records ;; Ok (ds ++ l)%list).
Proof.
  revert ds. induction records as [|rec rest IH]; intros ds;
    cbn [records_loop bind].
  - now rewrite List.app_nil_r.
  - rewrite (process_record_acc self ds rec).
    destruct (process_record self [] rec) as [l1|e]; cbn [bind]; [|reflexivity].
    rewrite (IH (ds ++ l1)%list), (IH l1).
    destruct (records_loop self [] rest) as [l2|e]; cbn [bind]; [|reflexivity].
    now rewrite List.app_assoc.
Qed.

(** X7: what a page contributes does not depend on what has been
    accumulated: processing its records on top of a list [ds] gives [ds]
    followed by what the same records give on the empty list, and raises the
    same exception when that raises. *)
Theorem records_loop_acc {P : PyStr} self (records : list Element) (ds : list pydict) :
  records_loop self ds records =
  (l <- records_loop self [] records ;; Ok (ds ++ l)%list).
Proof. exact (records_loop_on_top self records ds). Qed.

Lemma records_loop_extends {P : PyStr} self records ds ds' :
  records_loop self ds records = Ok ds' -> exists l, ds' = (ds ++ l)%list.
Proof.
  rewrite records_loop_on_top.
  destruct (records_loop self [] records) as [l|]; cbn [bind]; [|discriminate].
  intros [= <-]. now exists l.
Qed.

Section Run.
Context {P : PyStr} {T : Type} {ops : TimeOps T}.
Variable self : Scraper.
Variable clock : nat -> T.

Lemma requested_app (a b : list (event T)) :
  requested (a ++ b) = (requested a ++ requested b)%list.
Proof. apply flat_map_app. Qed.

Lemma step_requests (st : loop_state T) (o : http_outcome) :
  requested (fst (step self clock st o)) = [ls_url st].
Proof.
  destruct o as [root| |code hdrs|]; cbn [step fst]; try reflexivity.
  unfold on_http_error.
  destruct (code =? 503)%Z; [|reflexivity].
  destruct (retry_after hdrs); [|reflexivity].
  now destruct (t self <? 0)%Z.
Qed.

Lemma on_page_continue (st st' : loop_state T) (root : Element) :
  on_page self clock st root = Continue st' ->
  ls_k st' = (ls_k st + 1)%Z /\
  ls_ticks st' = S (S (ls_ticks st)) /\
  (exists l, ls_ds st' = (ls_ds st ++ l)%list) /\
  (exists txt, ls_url st' = BASE ++ "resumptionToken=" ++ txt).
Proof.
  unfold on_page.
  destruct (records_loop self (ls_ds st) _) as [ds|] eqn:E; [|discriminate].
  destruct (find_token root) as [token|]; [|discriminate].
  destruct (token_text token) as [txt|]; [|discriminate].
  unfold check_budget. destruct (t_ge _ _); [discriminate|].
  intros [= <-]. cbn. repeat split.
  - apply (records_loop_extends _ _ _ _ E).
  - now exists txt.
Qed.

Lemma on_page_break (st st' : loop_state T) (root : Element) :
  on_page self clock st root = Break st' ->
  exists l, ls_ds st' = (ls_ds st ++ l)%list.
Proof.
  unfold on_page.
  destruct (records_loop self (ls_ds st) _) as [ds|] eqn:E; [|discriminate].
  destruct (find_token root) as [token|]; [|discriminate].
  destruct (token_text token) as [txt|].
  - unfold check_budget. destruct (t_ge _ _); [|discriminate].
    intros [= <-]. cbn. apply (records_loop_extends _ _ _ _ E).
  - intros [= <-]. cbn. apply (records_loop_extends _ _ _ _ E).
Qed.

Lemma step_extends (st st' : loop_state T) (o : http_outcome) :
  snd (step self clock st o) = Continue st' \/
  snd (step self clock st o) = Break st' ->
  exists l, ls_ds st' = (ls_ds st ++ l)%list.
Proof.
  destruct o as [root| |code hdrs|]; cbn [step snd].
  - intros [H|H].
    + apply on_page_continue in H. tauto.
    + now apply on_page_break in H.
  - intros [H|H]; discriminate.
  - intros [H|H].
    + apply (http_failure_keeps_state self clock st st' code hdrs) in H.
      subst. exists []. now rewrite List.app_nil_r.
    + now apply (http_failure_never_breaks self clock st st' code hdrs) in H.
  - intros [H|H]; discriminate.
Qed.

Lemma loop_extends (t0 : T) (script : list http_outcome) :
  forall st,
    (forall ds, snd (loop self clock t0 script st) = Returned (RList ds) ->
                exists l, ds = (ls_ds st ++ l)%list) /\
    (forall st', snd (loop self clock t0 script st) = Pending st' ->
                 exists l, ls_ds st' = (ls_ds st ++ l)%list).
Proof.
  induction script as [|o rest IH]; intros st; cbn [loop].
  - split; [discriminate|]. cbn. intros st' [= <-]. exists [].
    now rewrite List.app_nil_r.
  - destruct (snd (step self clock st o)) as [st1|st1| |e] eqn:E;
      unfold emit; cbn [snd finish].
    + destruct (step_extends st st1 o (or_introl E)) as [l1 H1].
      destruct (IH st1) as [IHr IHp]. split.
      * intros ds H. destruct (IHr ds H) as [l ->]. exists (l1 ++ l)%list.
        now rewrite H1, List.app_assoc.
      * intros st' H. destruct (IHp st' H) as [l ->]. exists (l1 ++ l)%list.
        now rewrite H1, List.app_assoc.
    + destruct (step_extends st st1 o (or_intror E)) as [l1 H1]. split.
      * intros ds [= <-]. now exists l1.
      * discriminate.
    + split; discriminate.
    + split; discriminate.
Qed.

Lemma loop_requests_le (t0 : T) (script : list http_outcome) :
  forall st,
    length (requested (fst (loop self clock t0 script st))) <= length script.
Proof.
  induction script as [|o rest IH]; intros st; cbn [loop].
  - cbn. lia.
  - pose proof (step_requests st o) as Hreq.
    destruct (snd (step self clock st o)) as [st1|st1| |e]; unfold emit;
      cbn [fst finish];
      rewrite ?requested_app, ?length_app, ?Hreq; cbn [length requested flat_map app].
    + specialize (IH st1). lia.
    + lia.
    + lia.
    + lia.
Qed.

Lemma step_continue_counts (st st' : loop_state T) (o : http_outcome) :
  snd (step self clock st o) = Continue st' ->
  ls_k st' = (ls_k st + Z.of_nat (pages [o]))%Z /\
  ls_ticks st' = ls_ticks st + 2 * pages [o].
Proof.
  destruct o as [root| |code hdrs|]; cbn [step snd]; try discriminate.
  - intros H. apply on_page_continue in H.
    destruct H as (Hk & Ht & _). rewrite Hk, Ht. cbn. split; lia.
  - intros H.
    apply (http_failure_keeps_state self clock st st' code hdrs) in H.
    subst. cbn. split; lia.
Qed.

Lemma pages_cons (o : http_outcome) (rest : list http_outcome) :
  pages (o :: rest) = pages [o] + pages rest.
Proof. unfold pages. cbn [filter]. destruct o; reflexivity. Qed.

Lemma loop_pending_counts (t0 : T) (script : list http_outcome) :
  forall st st',
    snd (loop self clock t0 script st) = Pending st' ->
    ls_k st' = (ls_k st + Z.of_nat (pages script))%Z /\
    ls_ticks st' = ls_ticks st + 2 * pages script /\
    length (requested (fst (loop self clock t0 script st))) = length script.
Proof.
  induction script as [|o rest IH]; intros st st'; cbn [loop].
  - cbn. intros [= <-]. repeat split; lia.
  - pose proof (step_requests st o) as Hreq.
    destruct (snd (step self clock st o)) as [st1|st1| |e] eqn:E;
      unfold emit; cbn [fst snd finish]; try discriminate.
    intros H. destruct (IH st1 st' H) as (Hk & Ht & Hn).
    destruct (step_continue_counts st st1 o E) as (Hk1 & Ht1).
    rewrite pages_cons, requested_app, length_app, Hreq, Hn.
    cbn [length]. repeat split; lia.
Qed.

Lemma loop_single_requests (t0 : T) (o : http_outcome) (st : loop_state T) :
  requested (fst (loop self clock t0 [o] st)) = [ls_url st].
Proof.
  cbn [loop]. pose proof (step_requests st o) as Hreq.
  destruct (snd (step self clock st o)); unfold emit; cbn [fst finish];
    rewrite ?requested_app, ?Hreq; reflexivity.
Qed.

Lemma starts_with_BASE (x : string) : starts_with BASE (BASE ++ x) = true.
Proof. apply starts_with_spec. now exists x. Qed.

Lemma step_continue_url (st st' : loop_state T) (o : http_outcome) :
  snd (step self clock st o) = Continue st' ->
  starts_with BASE (ls_url st) = true ->
  starts_with BASE (ls_url st') = true.
Proof.
  destruct o as [root| |code hdrs|]; cbn [step snd]; try discriminate.
  - intros H _. apply on_page_continue in H.
    destruct H as (_ & _ & _ & txt & ->). apply starts_with_BASE.
  - intros H.
    apply (http_failure_keeps_state self clock st st' code hdrs) in H.
    now subst.
Qed.

Lemma loop_requests_on_endpoint (t0 : T) (script : list http_outcome) :
  forall st,
    starts_with BASE (ls_url st) = true ->
    Forall (fun u => starts_with BASE u = true)
      (requested (fst (loop self clock t0 script st))).
Proof.
  induction script as [|o rest IH]; intros st Hst; cbn [loop].
  - constructor.
  - pose proof (step_requests st o) as Hreq.
    destruct (snd (step self clock st o)) as [st1|st1| |e] eqn:E;
      unfold emit; cbn [fst finish];
      rewrite ?requested_app, ?Hreq; cbn [requested flat_map app];
      try (constructor; [exact Hst|constructor]).
    constructor; [exact Hst|]. apply IH.
    apply (step_continue_url st st1 o E Hst).
Qed.



Lemma records_loop_missing_fragment (ds : list pydict)
    (records : list Element) (rec : Element) :
  In rec records ->
  fragment_of rec = None ->
  exists e, records_loop self ds records = Raise e.
Proof.
  revert ds. induction records as [|r rest IH]; intros ds Hin Hnone;
    [contradiction|].
  cbn [records_loop].
  destruct (process_record self ds r) as [ds1|e] eqn:E; cbn [bind];
    [|now exists e].
  destruct Hin as [->|Hin]; [|now apply IH].
  unfold process_record in E. rewrite record_dict_eq, Hnone in E.
  discriminate.
Qed.

End Run.

(** X8: records once accumulated are never removed or reordered: whatever
    the server answers after a point where the loop is still fetching, the
    list that [scrape] returns, and the list held at any later point, begins
    with the list held at that point. *)
Theorem accumulated_records_never_lost {P : PyStr} {T : Type} {ops : TimeOps T}
    (self : Scraper) (clock : nat -> T) (before more : list http_outcome)
    (st : loop_state T) :
  snd (scrape self clock before) = Pending st ->
  (forall ds,
     snd (scrape self clock (before ++ more)%list) = Returned (RList ds) ->
     exists l, ds = (ls_ds st ++ l)%list) /\
  (forall st',
     snd (scrape self clock (before ++ more)%list) = Pending st' ->
     exists l, ls_ds st' = (ls_ds st ++ l)%list).
Proof.
  intros Hbefore. unfold scrape in *.
  rewrite (loop_app self clock _ _ _ _ _ Hbefore). unfold emit. cbn [snd].
  apply loop_extends.
Qed.

Lemma accumulated_records_never_lost_witness :
  exists l,
    [Sample.the_record Sample.paper; Sample.the_record Sample.untrimmed_paper;
     Sample.the_record Sample.paper]
    = (ls_ds (Sample.state_after (Sample.the_scraper Sample.no_filter)
                [Response Sample.page1]) ++ l)%list.
Proof.
  pose proof (accumulated_records_never_lost
                (Sample.the_scraper Sample.no_filter) Sample.clock
                [Response Sample.page1] [Sample.busy; Response Sample.page2]
                (Sample.state_after (Sample.the_scraper Sample.no_filter)
                   [Response Sample.page1])) as H.
  destruct H as [H _]; [vm_compute; reflexivity|].
  apply H. vm_compute. reflexivity.
Defined.

(** X9: while the loop is still fetching, its counters follow the replies:
    [k] is one more than the number of pages received (a 503 reply does
    not advance it), the clock has been read twice at the start and twice per
    page, and exactly one request has been issued per reply consumed. *)
Theorem pending_counters {P : PyStr} {T : Type} {ops : TimeOps T}
    (self : Scraper) (clock : nat -> T) (script : list http_outcome)
    (st : loop_state T) :
  snd (scrape self clock script) = Pending st ->
  ls_k st = (1 + Z.of_nat (pages script))%Z /\
  ls_ticks st = 2 + 2 * pages script /\
  length (requested (fst (scrape self clock script))) = length script.
Proof.
  intros H. unfold scrape in *.
  destruct (loop_pending_counts self clock _ script _ st H) as (Hk & Ht & Hn).
  cbn [ls_k ls_ticks] in Hk, Ht. repeat split; auto.
Qed.

Lemma pending_counters_witness :
  ls_k (Sample.state_after (Sample.the_scraper Sample.no_filter)
          [Sample.busy; Response Sample.page1; Sample.busy]) = 2%Z.
Proof.
  destruct (pending_counters (Sample.the_scraper Sample.no_filter)
              Sample.clock [Sample.busy; Response Sample.page1; Sample.busy]
              (Sample.state_after (Sample.the_scraper Sample.no_filter)
                 [Sample.busy; Response Sample.page1; Sample.busy]))
    as (Hk & _); [vm_compute; reflexivity|].
  rewrite Hk. reflexivity.
Defined.

Lemma init_url today category date_from date_until t0 timeout0 filters0 self :
  Scraper_init today category date_from date_until t0 timeout0 filters0
    = Ok self ->
  exists query, url self = BASE ++ query.
Proof.
  unfold Scraper_init.
  destruct (match date_from with
            | None => _
            | Some d => _
            end) as [bound|]; cbn [bind]; [|discriminate].
  destruct (match date_until with
            | None => _
            | Some d => _
            end) as [u0|]; cbn [bind]; [|discriminate].
  destruct filters0; intros [= <-]; cbn [url]; eexists; reflexivity.
Qed.

(** X10: a scraper built by the constructor only ever requests URLs of the
    export endpoint: every URL passed to [urlopen] during a scrape, the
    initial query as well as every resumption query, begins with [BASE],
    whatever the server puts into its resumption tokens. *)
Theorem requests_stay_on_endpoint {P : PyStr} {T : Type} {ops : TimeOps T}
    today category date_from date_until t0 timeout0 filters0 self
    (clock : nat -> T) (script : list http_outcome) :
  Scraper_init today category date_from date_until t0 timeout0 filters0
    = Ok self ->
  Forall (fun u => Str.starts_with BASE u = true)
    (requested (fst (scrape self clock script))).
Proof.
  intros Hinit. destruct (init_url _ _ _ _ _ _ _ _ Hinit) as [query Hq].
  unfold scrape. apply loop_requests_on_endpoint. cbn [ls_url].
  rewrite Hq. apply starts_with_BASE.
Qed.

Lemma requests_stay_on_endpoint_witness :
  Forall (fun u => Str.starts_with BASE u = true)
    (requested
       (fst (scrape (Sample.the_scraper Sample.no_filter) Sample.clock
               [Sample.busy; Response Sample.page1; Response Sample.page2]))).
Proof.
  apply (requests_stay_on_endpoint Sample.today "cs" None None 30 300
           Sample.no_filter). reflexivity.
Defined.

(** X11: a page that is processed and has a ListRecords element without a
    resumption token, or with a token that has no text, ends the scrape
    normally: [scrape] returns the accumulated list, issues no further
    request and takes only the closing clock reading. *)
Theorem tokenless_page_ends_scrape {P : PyStr} {T : Type} {ops : TimeOps T}
    (self : Scraper) (clock : nat -> T) (before rest : list http_outcome)
    (st : loop_state T) (root : Element) (ds' : list pydict)
    (token : option Element) :
  snd (scrape self clock before) = Pending st ->
  records_loop self (ls_ds st) (page_records root) = Ok ds' ->
  find_token root = Ok token ->
  token_text token = None ->
  scrape self clock (before ++ Response root :: rest)%list =
    ((fst (scrape self clock before) ++
      [EvPrintFetching (1000 * ls_k st); EvGet (ls_url st);
       EvPrintCompleted (t_sub (clock (ls_ticks st)) (clock 0));
       EvPrintTotal (length ds')])%list,
     Returned (RList ds')).
Proof.
  intros Hbefore Hrec Htok Htxt. unfold scrape in *.
  rewrite (loop_app self clock _ _ _ _ _ Hbefore).
  cbn [loop step snd fst]. unfold on_page. unfold page_records in Hrec.
  rewrite Hrec, Htok, Htxt. reflexivity.
Qed.

Lemma tokenless_page_ends_scrape_witness :
  snd (scrape (Sample.the_scraper Sample.no_filter) Sample.clock
         [Response Sample.page1; Response Sample.page2; Response Sample.page1])
  = Returned (RList [Sample.the_record Sample.paper;
                     Sample.the_record Sample.untrimmed_paper;
                     Sample.the_record Sample.paper]).
Proof.
  pose proof (tokenless_page_ends_scrape
                (Sample.the_scraper Sample.no_filter) Sample.clock
                [Response Sample.page1] [Response Sample.page1]
                (Sample.state_after (Sample.the_scraper Sample.no_filter)
                   [Response Sample.page1])
                Sample.page2
                [Sample.the_record Sample.paper;
                 Sample.the_record Sample.untrimmed_paper;
                 Sample.the_record Sample.paper]
                None) as H.
  cbn [app] in H. rewrite H; [reflexivity | vm_compute; reflexivity ..].
Defined.

(** X12: a processed page whose token has the text [txt], reached with the
    budget not yet met, makes the loop go on: the page counter advances, the
    elapsed time is increased by the interval since the previous reading,
    and the next request, whatever its answer, is the resumption query
    [BASE + "resumptionToken=" + txt]. *)
Theorem token_page_continues {P : PyStr} {T : Type} {ops : TimeOps T}
    (self : Scraper) (clock : nat -> T) (before : list http_outcome)
    (st : loop_state T) (root : Element) (ds' : list pydict)
    (token : option Element) (txt : string) (next : http_outcome) :
  snd (scrape self clock before) = Pending st ->
  records_loop self (ls_ds st) (page_records root) = Ok ds' ->
  find_token root = Ok token ->
  token_text token = Some txt ->
  t_ge (t_add (ls_elapsed st) (t_sub (clock (ls_ticks st)) (ls_tx st)))
       (timeout self) = false ->
  snd (scrape self clock (before ++ [Response root])%list) =
    Pending (mkState (BASE ++ "resumptionToken=" ++ txt) ds' (ls_k st + 1)
               (t_add (ls_elapsed st)
                  (t_sub (clock (ls_ticks st)) (ls_tx st)))
               (clock (S (ls_ticks st))) (S (S (ls_ticks st)))) /\
  requested (fst (scrape self clock
                    ((before ++ [Response root]) ++ [next])%list)) =
    (requested (fst (scrape self clock before)) ++
     [ls_url st; (BASE ++ "resumptionToken=" ++ txt)%string])%list.
Proof.
  intros Hbefore Hrec Htok Htxt Hlt.
  assert (Hpage : scrape self clock (before ++ [Response root])%list =
    ((fst (scrape self clock before) ++
      [EvPrintFetching (1000 * ls_k st); EvGet (ls_url st)])%list,
     Pending (mkState (BASE ++ "resumptionToken=" ++ txt) ds' (ls_k st + 1)
                (t_add (ls_elapsed st)
                   (t_sub (clock (ls_ticks st)) (ls_tx st)))
                (clock (S (ls_ticks st))) (S (S (ls_ticks st)))))).
  { unfold scrape in *. rewrite (loop_app self clock _ _ _ _ _ Hbefore).
    cbn [loop step snd fst]. unfold on_page. unfold page_records in Hrec.
    rewrite Hrec, Htok, Htxt. unfold check_budget.
    cbn [ls_elapsed ls_tx ls_ticks ls_url ls_ds ls_k]. rewrite Hlt.
    unfold emit. cbn [fst snd loop]. now rewrite List.app_nil_r. }
  split; [now rewrite Hpage|].
  assert (Hp : snd (scrape self clock (before ++ [Response root])%list) =
               Pending (mkState (BASE ++ "resumptionToken=" ++ txt) ds'
                          (ls_k st + 1)
                          (t_add (ls_elapsed st)
                             (t_sub (clock (ls_ticks st)) (ls_tx st)))
                          (clock (S (ls_ticks st))) (S (S (ls_ticks st)))))
    by now rewrite Hpage.
  unfold scrape in Hp |- *.
  rewrite (loop_app self clock _ _ _ _ _ Hp). unfold emit. cbn [fst].
  rewrite requested_app, loop_single_requests. cbn [ls_url].
  fold (scrape self clock (before ++ [Response root])%list).
  rewrite Hpage. cbn [fst]. rewrite requested_app. cbn [requested flat_map app].
  now rewrite <- List.app_assoc.
Qed.

Lemma token_page_continues_witness :
  requested
    (fst (scrape (Sample.the_scraper Sample.no_filter) Sample.clock
            (([Sample.busy] ++ [Response Sample.page1]) ++ [Malformed])%list))
  = (requested
       (fst (scrape (Sample.the_scraper Sample.no_filter) Sample.clock
               [Sample.busy])) ++
     [ls_url (Sample.state_after (Sample.the_scraper Sample.no_filter)
                [Sample.busy]);
      (BASE ++ "resumptionToken=tok|1001")%string])%list.
Proof.
  pose proof (token_page_continues
                (Sample.the_scraper Sample.no_filter) Sample.clock
                [Sample.busy]
                (Sample.state_after (Sample.the_scraper Sample.no_filter)
                   [Sample.busy])
                Sample.page1
                [Sample.the_record Sample.paper;
                 Sample.the_record Sample.untrimmed_paper]
                (Some (Sample.leaf OAI "resumptionToken" "tok|1001"))
                "tok|1001" Malformed) as H.
  destruct H as [_ H]; [vm_compute; reflexivity ..|].
  exact H.
Defined.



(** X14: an HTTP failure with a status other than 503 is not retried: at
    whatever point of the scrape it arrives, [scrape] raises that very
    HTTPError, with its code and headers, and the records accumulated so
    far are not returned. *)
Theorem http_error_propagates {P : PyStr} {T : Type} {ops : TimeOps T}
    (self : Scraper) (clock : nat -> T) (before rest : list http_outcome)
    (st : loop_state T) (code : Z) (hdrs : list (string * string)) :
  snd (scrape self clock before) = Pending st ->
  code <> 503%Z ->
  scrape self clock (before ++ HttpFailure code hdrs :: rest)%list =
    ((fst (scrape self clock before) ++
      [EvPrintFetching (1000 * ls_k st); EvGet (ls_url st)])%list,
     Raised (HTTPError code hdrs)).
Proof.
  intros Hbefore Hcode. unfold scrape in *.
  rewrite (loop_app self clock _ _ _ _ _ Hbefore). cbn [loop].
  rewrite (other_status_propagates self clock st code hdrs Hcode).
  reflexivity.
Qed.

Lemma http_error_propagates_witness :
  snd (scrape (Sample.the_scraper Sample.no_filter) Sample.clock
         [Response Sample.page1; HttpFailure 404 []; Response Sample.page2])
  = Raised (HTTPError 404 []).
Proof.
  pose proof (http_error_propagates
                (Sample.the_scraper Sample.no_filter) Sample.clock
                [Response Sample.page1] [Response Sample.page2]
                (Sample.state_after (Sample.the_scraper Sample.no_filter)
                   [Response Sample.page1])
                404 []) as H.
  cbn [app] in H. rewrite H; [reflexivity | vm_compute; reflexivity | lia].
Defined.

(** X15: one record element without an arXiv fragment (an OAI record that
    has only a header, or whose metadata holds no arXiv element) aborts the
    whole scrape: [scrape] raises, AttributeError when no filter is
    configured, and returns none of the records accumulated so far. *)
Theorem record_without_fragment_aborts {P : PyStr} {T : Type} {ops : TimeOps T}
    (self : Scraper) (clock : nat -> T) (before rest : list http_outcome)
    (st : loop_state T) (root rec : Element) :
  snd (scrape self clock before) = Pending st ->
  In rec (page_records root) ->
  fragment_of rec = None ->
  exists e,
    snd (scrape self clock (before ++ Response root :: rest)%list) = Raised e /\
    (append_all self = true -> e = AttributeError).
Proof.
  intros Hbefore Hin Hnone. unfold scrape in *.
  rewrite (loop_app self clock _ _ _ _ _ Hbefore).
  cbn [loop step snd fst]. unfold on_page.
  fold (page_records root).
  destruct (records_loop_missing_fragment self (ls_ds st) _ rec Hin Hnone)
    as [e He].
  rewrite He. exists e. split; [reflexivity|].
  intros Ha. rewrite (records_loop_unfiltered self _ _ Ha) in He.
  destruct (forallb has_fragment (page_records root)); congruence.
Qed.

Lemma record_without_fragment_aborts_witness :
  exists e,
    snd (scrape (Sample.the_scraper Sample.no_filter) Sample.clock
           ([Response Sample.page1] ++
            Response Cases.page_with_deleted :: [Response Sample.page2])%list)
    = Raised e /\
    (append_all (Sample.the_scraper Sample.no_filter) = true ->
     e = AttributeError).
Proof.
  apply (record_without_fragment_aborts
           (Sample.the_scraper Sample.no_filter) Sample.clock
           [Response Sample.page1] [Response Sample.page2]
           (Sample.state_after (Sample.the_scraper Sample.no_filter)
              [Response Sample.page1])
           Cases.page_with_deleted Cases.deleted_record).
  - vm_compute; reflexivity.
  - right. left. reflexivity.
  - reflexivity.
Defined.

End ScrapeProps.

(** * Further properties of the constructor *)

Module InitProps.

(** X16: the three combinations of bounds that the constructor accepts.
    With date-from omitted (and today not the first representable date),
    construction succeeds, date-from is yesterday, date-until is the supplied
    string or else yesterday, and the query URL embeds both dates and the
    category; the delay, the budget and the filters are stored as given.
    With both bounds supplied the strings are embedded as they stand, not
    validated, and the current date plays no part. *)
Theorem accepted_bounds (today yesterday : date) (category : string)
    (t0 timeout0 : Z) (filters0 : filter_config) :
  date_minus_one_day today = Ok yesterday ->
  (forall date_until, exists self,
     Scraper_init today category None date_until t0 timeout0 filters0
       = Ok self /\
     f self = date_str yesterday /\
     u self = match date_until with
              | Some d => d
              | None => date_str yesterday
              end /\
     url self = BASE ++ "from=" ++ date_str yesterday ++ "&until=" ++ u self
                  ++ "&metadataPrefix=arXiv&set=" ++ category /\
     t self = t0 /\ timeout self = timeout0 /\ filters self = filters0) /\
  (forall any_day date_from date_until, exists self,
     Scraper_init any_day category (Some date_from) (Some date_until) t0
       timeout0 filters0 = Ok self /\
     url self = BASE ++ "from=" ++ date_from ++ "&until=" ++ date_until
                  ++ "&metadataPrefix=arXiv&set=" ++ category /\
     t self = t0 /\ timeout self = timeout0 /\ filters self = filters0).
Proof.
  intros Hy. split.
  - intros date_until. unfold Scraper_init. rewrite Hy. cbn [bind fst snd].
    destruct date_until as [d|]; cbn [bind];
      destruct filters0; (eexists; split; [reflexivity | cbn; auto 10]).
  - intros any_day date_from date_until. unfold Scraper_init.
    cbn [bind fst snd].
    destruct filters0; (eexists; split; [reflexivity | cbn; auto 10]).
Qed.

Lemma accepted_bounds_witness :
  exists self,
    Scraper_init Sample.today "cs" None (Some "2024-03-05") 30 300
      main_filters = Ok self /\
    f self = "2024-02-29" /\ u self = "2024-03-05".
Proof.
  destruct (accepted_bounds Sample.today (mkDate 2024 2 29) "cs" 30 300
              main_filters eq_refl) as [H _].
  destruct (H (Some "2024-03-05")) as (self & Hs & Hf & Hu & _).
  exists self. repeat split; assumption.
Defined.

End InitProps.

(** * Further properties of the renderer *)

Module HtmlProps.
Import Str StrFacts RecordFacts HtmlFacts.

Section Render.
Variable repr_list : list string -> string.

Lemma paragraphs_closed_form (rs : list ArxivRecord) :
  forall acc,
    paragraphs repr_list acc (map output rs) =
    Ok (acc ++ concat_all
                 (map (fun r => paragraph_text (r_url r) (r_title r)
                                  (r_authors r)) rs)).
Proof.
  induction rs as [|r rs IH]; intros acc; cbn [map paragraphs concat_all].
  - now rewrite app_nil_r.
  - rewrite (paragraph_literal repr_list (output r) (r_url r) (r_title r)
               (r_authors r) eq_refl eq_refl eq_refl).
    cbn [bind]. rewrite IH. now rewrite app_assoc.
Qed.

Lemma paragraph_missing_key (d : pydict) :
  lookup d "url" = None \/ lookup d "title" = None \/
  lookup d "authors" = None ->
  exists k, paragraph repr_list d = Raise (KeyError k).
Proof.
  unfold paragraph, getitem. intros H.
  destruct (lookup d "url"); cbn [bind]; [|now exists "url"].
  destruct (lookup d "title"); cbn [bind]; [|now exists "title"].
  destruct (lookup d "authors"); cbn [bind]; [|now exists "authors"].
  destruct H as [H|[H|H]]; discriminate.
Qed.

Lemma paragraphs_raise (records : list pydict) (d : pydict) (e : exn) :
  In d records ->
  paragraph repr_list d = Raise e ->
  forall acc, exists e', paragraphs repr_list acc records = Raise e'.
Proof.
  induction records as [|x rest IH]; intros Hin He acc; [contradiction|].
  cbn [paragraphs].
  destruct (paragraph repr_list x) as [p|e0] eqn:E; cbn [bind];
    [|now exists e0].
  destruct Hin as [->|Hin]; [congruence | now apply IH].
Qed.

End Render.

Lemma header_literal (d : string) : html_header d = header_text d.
Proof. reflexivity. Qed.

(** X17: for records built by the mapper the renderer never fails on a
    record and the written text is, character for character, the header
    with yesterday's date, then for each record in the order received the
    paragraph made of its url in the href, its title as the anchor text and
    its authors joined by a comma and a space, then the closing tags. *)
Theorem rendered_text_closed_form (repr_list : list string -> string)
    (today yesterday : date) (rs : list ArxivRecord) (filename : string) :
  date_minus_one_day today = Ok yesterday ->
  generate_html repr_list today (map output rs) filename =
  Ok (filename,
      header_text (date_str yesterday)
        ++ concat_all
             (map (fun r => paragraph_text (r_url r) (r_title r)
                              (r_authors r)) rs)
        ++ "</div></div>").
Proof.
  intros Hy. unfold generate_html, html_content. rewrite Hy. cbn [bind].
  rewrite paragraphs_closed_form. cbn [bind].
  now rewrite header_literal, app_assoc.
Qed.

Lemma rendered_text_closed_form_witness :
  generate_html (fun _ => "") Sample.today
    (map output [Sample.the_object Sample.paper])
    "arxiv_papers.html" =
  Ok ("arxiv_papers.html",
      header_text "2024-02-29"
        ++ paragraph_text "https://arxiv.org/abs/2401.00001" "a study of x"
             ["ada lovelace"; "alan turing"]
        ++ "</div></div>").
Proof.
  rewrite (rendered_text_closed_form (fun _ => "") Sample.today
             (mkDate 2024 2 29) [Sample.the_object Sample.paper]
             "arxiv_papers.html" eq_refl).
  reflexivity.
Defined.

(** X18: a dictionary without one of the keys url, title and authors
    anywhere in the list makes [generate_html] raise before the file is
    opened: nothing is written, not even the paragraphs of the records that
    precede it. *)
Theorem missing_key_writes_nothing (repr_list : list string -> string)
    (today : date) (records : list pydict) (d : pydict) (filename : string) :
  In d records ->
  lookup d "url" = None \/ lookup d "title" = None \/
  lookup d "authors" = None ->
  exists e, generate_html repr_list today records filename = Raise e.
Proof.
  intros Hin Hmiss. unfold generate_html, html_content.
  destruct (date_minus_one_day today) as [y|e]; cbn [bind]; [|now exists e].
  destruct (paragraph_missing_key repr_list d Hmiss) as [k Hk].
  destruct (paragraphs_raise repr_list records d _ Hin Hk
              (html_header (date_str y))) as [e' He'].
  rewrite He'. now exists e'.
Qed.

Lemma missing_key_writes_nothing_witness :
  exists e,
    generate_html (fun _ => "") Sample.today
      [Sample.the_record Sample.paper; [("title", VStr "untitled")]]
      "arxiv_papers.html" = Raise e.
Proof.
  apply (missing_key_writes_nothing (fun _ => "") Sample.today
           [Sample.the_record Sample.paper; [("title", VStr "untitled")]]
           [("title", VStr "untitled")] "arxiv_papers.html").
  - right. now left.
  - now left.
Defined.

End HtmlProps.

(** * The empty fragment and the script *)

Module MainProps.
Import Str StrFacts RecordFacts FilterFacts ScrapeFacts HtmlFacts.
Import RecordProps FilterProps.

Lemma digit_char_not_lt (n : Z) : Ascii.eqb (digit_char n) "<" = false.
Proof.
  unfold digit_char.
  assert (H : Z.to_nat (n mod 10) < 10).
  { pose proof (Z.mod_pos_bound n 10 ltac:(lia)). lia. }
  remember (Z.to_nat (n mod 10)) as k eqn:Ek. clear Ek.
  do 10 (destruct k as [|k]; [reflexivity|]). lia.
Qed.

Lemma pad_num_no_lt (width : nat) :
  forall n, mem_char "<" (pad_num width n) = false.
Proof.
  induction width as [|w IH]; intros n; cbn [pad_num]; [reflexivity|].
  rewrite mem_char_app, IH. cbn [mem_char orb].
  now rewrite digit_char_not_lt.
Qed.

Lemma date_str_no_lt (d : date) : mem_char "<" (date_str d) = false.
Proof.
  unfold date_str. rewrite !mem_char_app, !pad_num_no_lt. reflexivity.
Qed.

Lemma contains_skip (w d x : string) :
  mem_char "<" d = false ->
  contains (String "<" w) (d ++ x) = contains (String "<" w) x.
Proof.
  induction d as [|c d IH]; cbn [mem_char append]; [reflexivity|].
  intros H. apply orb_false_iff in H. destruct H as [Hc Hd].
  cbn [contains starts_with]. rewrite (Ascii.eqb_sym "<" c), Hc.
  cbn [andb orb]. now apply IH.
Qed.

Lemma contains_step (w : string) (c : ascii) (s : string) :
  starts_with w (String c s) = false ->
  contains w (String c s) = contains w s.
Proof. intros H. cbn [contains]. now rewrite H. Qed.

(** The header cut at each of its four opening angle brackets. *)
Lemma header_segments (d : string) :
  html_header d ++ "</div></div>" =
  (NL ++ "    ") ++
  String "<" (("div id=" ++ DQ ++ "div_diffusion_papers_list" ++ DQ
               ++ " class=" ++ DQ ++ "list-papers" ++ DQ ++ ">" ++ NL
               ++ "    ") ++
  String "<" (("div class=" ++ DQ ++ "date-papers" ++ DQ ++ ">" ++ NL
               ++ "    ") ++
  String "<" ("h6>" ++
  String "<" (("b>" ++ d) ++
  ("</b></h6>" ++ NL ++ "    " ++ "</div></div>"))))).
Proof.
  unfold html_header. rewrite !app_assoc. reflexivity.
Qed.

(** X19: with no record at all the renderer still writes a fragment: the
    header and the closing tags, holding the heading with yesterday's date
    and neither a paragraph nor an anchor. *)
Theorem empty_list_renders_heading_only (repr_list : list string -> string)
    (today yesterday : date) (filename : string) :
  date_minus_one_day today = Ok yesterday ->
  generate_html repr_list today [] filename =
    Ok (filename, html_header (date_str yesterday) ++ "</div></div>") /\
  occurs_in (heading (date_str yesterday))
    (html_header (date_str yesterday) ++ "</div></div>") /\
  contains "<p>" (html_header (date_str yesterday) ++ "</div></div>") = false /\
  contains "<a " (html_header (date_str yesterday) ++ "</div></div>") = false.
Proof.
  intros Hy. split; [|split; [|split]].
  - unfold generate_html, html_content. rewrite Hy. reflexivity.
  - unfold heading, html_header.
    exists (NL ++ "    <div id=" ++ DQ ++ "div_diffusion_papers_list" ++ DQ
              ++ " class=" ++ DQ ++ "list-papers" ++ DQ ++ ">" ++
            NL ++ "    <div class=" ++ DQ ++ "date-papers" ++ DQ ++ ">" ++
            NL ++ "    ").
    exists (NL ++ "    " ++ "</div></div>").
    rewrite !app_assoc. reflexivity.
  - rewrite (header_segments (date_str yesterday)).
    rewrite contains_skip by reflexivity.
    rewrite contains_step by reflexivity.
    rewrite contains_skip by reflexivity.
    rewrite contains_step by reflexivity.
    rewrite contains_skip by reflexivity.
    rewrite contains_step by reflexivity.
    rewrite contains_skip by reflexivity.
    rewrite contains_step by reflexivity.
    rewrite contains_skip
      by (rewrite mem_char_app, date_str_no_lt; reflexivity).
    reflexivity.
  - rewrite (header_segments (date_str yesterday)).
    rewrite contains_skip by reflexivity.
    rewrite contains_step by reflexivity.
    rewrite contains_skip by reflexivity.
    rewrite contains_step by reflexivity.
    rewrite contains_skip by reflexivity.
    rewrite contains_step by reflexivity.
    rewrite contains_skip by reflexivity.
    rewrite contains_step by reflexivity.
    rewrite contains_skip
      by (rewrite mem_char_app, date_str_no_lt; reflexivity).
    reflexivity.
Qed.

Lemma empty_list_renders_heading_only_witness :
  generate_html (fun _ => "") Sample.today [] "arxiv_papers.html" =
  Ok ("arxiv_papers.html", html_header "2024-02-29" ++ "</div></div>").
Proof.
  apply (empty_list_renders_heading_only (fun _ => "") Sample.today
           (mkDate 2024 2 29) "arxiv_papers.html" eq_refl).
Defined.

(** X20: the script has no guard for the integer that [scrape] returns on a
    page without ListRecords (such as an OAI-PMH error document): it hands
    the 1 to [generate_html], whose [for] statement cannot iterate over it,
    so the run ends in TypeError and no file is written. *)
Theorem main_fails_on_sentinel {P : PyStr} {T : Type} {ops : TimeOps T}
    (repr_list : list string -> string)
    (today_init today_render yesterday : date) (scraper : Scraper)
    (clock : nat -> T) (before rest : list http_outcome)
    (st : loop_state T) (root : Element) :
  Scraper_init today_init "cs" None None 30 300 main_filters = Ok scraper ->
  snd (scrape scraper clock before) = Pending st ->
  find root (OAI ++ "ListRecords") = None ->
  date_minus_one_day today_render = Ok yesterday ->
  snd (main repr_list today_init today_render clock
         (before ++ Response root :: rest)%list) = NotIterable 1.
Proof.
  intros Hinit Hbefore Hnone Hy. unfold main. rewrite Hinit. cbn [snd].
  unfold scrape in *. rewrite (loop_app scraper clock _ _ _ _ _ Hbefore).
  cbn [loop step snd fst].
  rewrite (on_page_no_container scraper clock st root Hnone).
  cbn [snd]. unfold render_returned. now rewrite Hy.
Qed.

Lemma main_fails_on_sentinel_witness :
  snd (main (fun _ => "") Sample.today Sample.today Sample.clock
         ([Sample.busy] ++ Response Sample.error_page :: [])%list)
  = NotIterable 1.
Proof.
  apply (main_fails_on_sentinel (fun _ => "") Sample.today Sample.today
           (mkDate 2024 2 29) (Sample.the_scraper main_filters)
           Sample.clock [Sample.busy] []
           (Sample.state_after (Sample.the_scraper main_filters)
              [Sample.busy])
           Sample.error_page).
  - reflexivity.
  - vm_compute; reflexivity.
  - reflexivity.
  - reflexivity.
Defined.

Lemma abstract_of_output (r : ArxivRecord) :
  lookup (output r) "abstract" = Some (VStr (r_abstract r)).
Proof. reflexivity. Qed.

(** X21: the scraper that the script builds never fails in its filter and
    keeps exactly the records whose normalized abstract contains
    "diffusion", "text to image" or "controlnet". *)
Theorem main_filter_on_abstract {P : PyStr} (today : date) (scraper : Scraper)
    (xml : Element) (ds : list pydict) :
  Scraper_init today "cs" None None 30 300 main_filters = Ok scraper ->
  append_record scraper ds (output (Record_of xml)) =
  Ok (if contains "diffusion" (r_abstract (Record_of xml))
         || contains "text to image" (r_abstract (Record_of xml))
         || contains "controlnet" (r_abstract (Record_of xml))
      then (ds ++ [output (Record_of xml)])%list
      else ds).
Proof.
  intros Hinit.
  destruct (init_filter_fields _ _ _ _ _ _ _ _ Hinit) as (Hf & Ha & Hk).
  unfold append_record. rewrite Ha. cbn [main_filters].
  rewrite (save_record_eq scraper (output (Record_of xml)))
    by (rewrite Hf; apply Hk; discriminate).
  rewrite Hf.
  change (dict_keys main_filters) with ["abstract"].
  cbn [keys_loop].
  change (getitem main_filters "abstract")
    with (@Ok (list string) ["diffusion"; "text to image"; "controlnet"]).
  cbn [bind].
  rewrite (words_loop_found (output (Record_of xml)) "abstract"
             (VStr (r_abstract (Record_of xml))) _ false
             (abstract_of_output (Record_of xml))).
  cbn [bind existsb py_in orb].
  rewrite (str_lower_ascii "diffusion") by reflexivity.
  rewrite (str_lower_ascii "text to image") by reflexivity.
  rewrite (str_lower_ascii "controlnet") by reflexivity.
  change (lower "diffusion") with "diffusion".
  change (lower "text to image") with "text to image".
  change (lower "controlnet") with "controlnet".
  rewrite orb_false_r, orb_assoc.
  now destruct (contains "diffusion" (r_abstract (Record_of xml))
                || contains "text to image" (r_abstract (Record_of xml))
                || contains "controlnet" (r_abstract (Record_of xml))).
Qed.

Lemma main_filter_on_abstract_witness :
  append_record (Sample.the_scraper main_filters) []
    (output (Record_of Sample.paper))
  = Ok [output (Record_of Sample.paper)].
Proof.
  rewrite (main_filter_on_abstract Sample.today
             (Sample.the_scraper main_filters) Sample.paper [] eq_refl).
  reflexivity.
Defined.

End MainProps.
